(** * Report query and update engine: a shallow embedding of the route handlers

    The development follows [src/models/report.ts] (data model, the shared
    [reports] array) and the report router (POST /reports,
    POST /reports/:id/attachment, GET /reports/:id, PUT /reports/:id).

    Conventions of the embedding:
    - a JS [number] that the code only uses as an integer is a [Z];
      [NaN] coming out of [parseInt] is [None];
    - a JS string is a [string] read as a sequence of code units below 256;
    - the shared [reports] array and every array of entries live in a
      [World]; an array of entries is referred to by its location, so that
      an in-place [sort] on an alias would be visible;
    - the handlers are modelled from the point where the authentication and
      role middleware (and multer, for uploads) has called [next()];
      timestamps and uuids are inputs of the handlers. *)

From Stdlib Require Import ZArith QArith Qround Ascii String Sorting.Sorted.
From Stdlib Require Import Sorting.Permutation.
From Stdlib Require OrderedTypeEx.
From stdpp Require Import base tactics option list strings pretty.

Local Open Scope string_scope.
Local Open Scope list_scope.
Local Open Scope Z_scope.

(** ** Data model ([src/models/report.ts]) *)

Inductive Status := draft | submitted.
Inductive Priority := low | medium | high.

#[global] Instance Status_eq_dec : EqDecision Status.
Proof. solve_decision. Defined.
#[global] Instance Priority_eq_dec : EqDecision Priority.
Proof. solve_decision. Defined.

Module Entry.
Record t := mk {
  id : string;
  content : string;
  createdAt : string;
  priority : Priority }.
End Entry.

Module Metrics.
Record t := mk {
  totalEntries : Z;
  highPriorityEntries : Z }.
End Metrics.

Module Attachment.
Record t := mk {
  filename : string;
  originalName : string;
  mimetype : string;
  size : Z;
  url : string }.
End Attachment.

(** Location of an array of entries in the world. *)
Abbreviation loc := nat (only parsing).

Module Report.
Record t := mk {
  id : string;
  title : string;
  status : Status;
  priority : Priority;
  createdAt : string;
  updatedAt : string;
  version : Z;
  entries : loc;
  metrics : Metrics.t;
  auditLogs : option (list string);
  attachments : option (list Attachment.t) }.

(** Field assignments [report.f = v]. *)
Definition set_title (v : string) (r : t) : t :=
  mk (id r) v (status r) (priority r) (createdAt r) (updatedAt r)
     (version r) (entries r) (metrics r) (auditLogs r) (attachments r).
Definition set_status (v : Status) (r : t) : t :=
  mk (id r) (title r) v (priority r) (createdAt r) (updatedAt r)
     (version r) (entries r) (metrics r) (auditLogs r) (attachments r).
Definition set_priority (v : Priority) (r : t) : t :=
  mk (id r) (title r) (status r) v (createdAt r) (updatedAt r)
     (version r) (entries r) (metrics r) (auditLogs r) (attachments r).
Definition set_updatedAt (v : string) (r : t) : t :=
  mk (id r) (title r) (status r) (priority r) (createdAt r) v
     (version r) (entries r) (metrics r) (auditLogs r) (attachments r).
Definition set_version (v : Z) (r : t) : t :=
  mk (id r) (title r) (status r) (priority r) (createdAt r) (updatedAt r)
     v (entries r) (metrics r) (auditLogs r) (attachments r).
Definition set_auditLogs (v : option (list string)) (r : t) : t :=
  mk (id r) (title r) (status r) (priority r) (createdAt r) (updatedAt r)
     (version r) (entries r) (metrics r) v (attachments r).
Definition set_attachments (v : option (list Attachment.t)) (r : t) : t :=
  mk (id r) (title r) (status r) (priority r) (createdAt r) (updatedAt r)
     (version r) (entries r) (metrics r) (auditLogs r) v.
End Report.

(** ** The JavaScript operations the handlers rely on *)

(** [x || d] on a number that is an integer or [NaN]: [NaN] and [0] are
    falsy. *)
Definition js_or (x : option Z) (d : Z) : Z :=
  match x with
  | Some v => if decide (v = 0) then d else v
  | None => d
  end.

(** [s || d] on strings: only the empty string is falsy. *)
Definition js_or_string (s d : string) : string :=
  if decide (s = "") then d else s.

(** Truthiness of an optional number: [undefined] and [0] are falsy. *)
Definition truthy_number (x : option Z) : bool :=
  match x with
  | Some v => negb (v =? 0)
  | None => false
  end.

(** Truthiness of an optional query or body string. *)
Definition truthy_string (s : option string) : bool :=
  match s with
  | Some v => negb (bool_decide (v = ""))
  | None => false
  end.

(** [s.split(sep)] for a one-character separator. *)
Fixpoint split (sep : ascii) (s : string) : list string :=
  match s with
  | EmptyString => [""]
  | String c s' =>
      if decide (c = sep) then "" :: split sep s'
      else match split sep s' with
           | x :: xs => String c x :: xs
           | [] => [String c ""]
           end
  end.

(** White space and line terminators below 256, as [trim] sees them. *)
Definition is_white (c : ascii) : bool :=
  let n := nat_of_ascii c in
  bool_decide (n = 9 \/ n = 10 \/ n = 11 \/ n = 12 \/ n = 13 \/ n = 32 \/ n = 160)%nat.

Fixpoint trim_start (s : string) : string :=
  match s with
  | String c s' => if is_white c then trim_start s' else s
  | EmptyString => ""
  end.

Fixpoint trim_end (s : string) : string :=
  match s with
  | String c s' =>
      match trim_end s' with
      | EmptyString => if is_white c then "" else String c ""
      | t => String c t
      end
  | EmptyString => ""
  end.

Definition trim (s : string) : string := trim_end (trim_start s).

(** [a.join(sep)]. *)
Fixpoint join (sep : string) (a : list string) : string :=
  match a with
  | [] => ""
  | [x] => x
  | x :: xs => x +:+ sep +:+ join sep xs
  end.

(** [fields.includes(x)]. *)
Definition includes (x : string) (fields : list string) : bool :=
  bool_decide (x ∈ fields).

(** [a.slice(start, end)] with integer arguments. *)
Definition slice {A} (start end_ : Z) (a : list A) : list A :=
  let len := Z.of_nat (length a) in
  let k := if start <? 0 then Z.max (len + start) 0 else Z.min start len in
  let final := if end_ <? 0 then Z.max (len + end_) 0 else Z.min end_ len in
  take (Z.to_nat (final - k)) (drop (Z.to_nat k) a).

(** [Math.ceil(a / b)] on integers. *)
Definition ceil_div (a b : Z) : Z :=
  Qceiling (inject_Z a / inject_Z b).

(** [a.sort(compareFn)]: the sort is stable (ECMAScript 2019), so for a
    consistent comparator its result is the one of a stable insertion sort.
    [sort_insert] puts [x], which precedes the elements of [a] in the
    original order, behind exactly those it compares greater than. *)
Section Sort.
Context {A : Type} (compareFn : A -> A -> Z).

Fixpoint sort_insert (x : A) (a : list A) : list A :=
  match a with
  | [] => [x]
  | y :: a' =>
      if 0 <? compareFn x y then y :: sort_insert x a' else x :: y :: a'
  end.

Fixpoint sort (a : list A) : list A :=
  match a with
  | [] => []
  | x :: a' => sort_insert x (sort a')
  end.
End Sort.

(** ** Comparing entries by a field (the comparator of GET /reports/:id) *)

(** What [(a as any)[field]] and [priorityMap[...]] evaluate to. *)
Inductive Value :=
| VString (s : string)
| VNumber (n : Z)
| VUndefined.

Definition priority_name (p : Priority) : string :=
  match p with low => "low" | medium => "medium" | high => "high" end.

(** [(e as any)[field]]: a property the entry does not own compares like
    [undefined] (the inherited ones yield values that are neither smaller
    nor greater than themselves). *)
Definition get_field (e : Entry.t) (field : string) : Value :=
  if decide (field = "id") then VString (Entry.id e)
  else if decide (field = "content") then VString (Entry.content e)
  else if decide (field = "createdAt") then VString (Entry.createdAt e)
  else if decide (field = "priority") then VString (priority_name (Entry.priority e))
  else VUndefined.

(** [const priorityMap = { low: 1, medium: 2, high: 3 }]. *)
Definition priorityMap (p : Priority) : Z :=
  match p with low => 1 | medium => 2 | high => 3 end.

(** [x < y]; both operands of a comparison are read from the same field, so
    they are two strings, two numbers or two [undefined]. *)
Definition js_lt (x y : Value) : bool :=
  match x, y with
  | VString s, VString t => String.ltb s t
  | VNumber n, VNumber m => n <? m
  | _, _ => false
  end.

Definition js_gt (x y : Value) : bool := js_lt y x.

Definition compareFn (field : string) (order : option string) (a b : Entry.t) : Z :=
  let aValue := get_field a field in
  let bValue := get_field b field in
  let '(aValue, bValue) :=
    if decide (field = "priority")
    then (VNumber (priorityMap (Entry.priority a)), VNumber (priorityMap (Entry.priority b)))
    else (aValue, bValue) in
  if js_lt aValue bValue then (if decide (order = Some "desc") then 1 else -1)
  else if js_gt aValue bValue then (if decide (order = Some "desc") then -1 else 1)
  else 0.

(** [const [field, order] = sortParam.split('_')]. *)
Definition sort_request (sortParam : string) : string * option string :=
  let parts := split "_" sortParam in
  (default "" (parts !! 0%nat), parts !! 1%nat).

(** [e => e.priority === 'high']. *)
Definition is_high (e : Entry.t) : bool := bool_decide (Entry.priority e = high).

(** ** The world: the [reports] array and the arrays of entries *)

Record World := mkWorld {
  reports : list Report.t;
  arrays : list (list Entry.t) }.

Definition M (A : Type) : Type := World -> A * World.

Definition ret {A} (x : A) : M A := fun w => (x, w).
Definition bind {A B} (m : M A) (k : A -> M B) : M B :=
  fun w => let '(x, w') := m w in k x w'.

Notation "'let*' x ':=' m 'in' k" := (bind m (fun x => k))
  (at level 10, x name, m at level 100, k at level 200).
Notation "'do' m 'in' k" := (bind m (fun _ => k))
  (at level 10, m at level 100, k at level 200).

(** [reports.find(r => r.id === id)]: the first match, with its slot. *)
Definition reports_find (id : string) : M (option (nat * Report.t)) :=
  fun w => (list_find (fun r => Report.id r = id) (reports w), w).

(** [reports.push(r)]. *)
Definition reports_push (r : Report.t) : M unit :=
  fun w => (tt, mkWorld (reports w ++ [r]) (arrays w)).

(** The object in slot [k] after the assignments made through the
    reference [report]. *)
Definition reports_store (k : nat) (r : Report.t) : M unit :=
  fun w => (tt, mkWorld (<[k := r]> (reports w)) (arrays w)).

(** The elements of the array at [l]. *)
Definition elements (w : World) (l : loc) : list Entry.t :=
  default [] (arrays w !! l).

Definition arr_new (es : list Entry.t) : M loc :=
  fun w => (length (arrays w), mkWorld (reports w) (arrays w ++ [es])).
Definition arr_read (l : loc) : M (list Entry.t) :=
  fun w => (elements w l, w).
Definition arr_write (l : loc) (es : list Entry.t) : M unit :=
  fun w => (tt, mkWorld (reports w) (<[l := es]> (arrays w))).

(** [a.length] reads the array; [[...a]], [a.filter(f)] and [a.slice(s, e)]
    build a new one; [a.sort(c)] sorts [a] itself and returns it. *)
Definition arr_length (l : loc) : M Z :=
  let* es := arr_read l in ret (Z.of_nat (length es)).
Definition arr_spread (l : loc) : M loc :=
  let* es := arr_read l in arr_new es.
Definition arr_filter (f : Entry.t -> bool) (l : loc) : M loc :=
  let* es := arr_read l in arr_new (List.filter f es).
Definition arr_slice (start end_ : Z) (l : loc) : M loc :=
  let* es := arr_read l in arr_new (slice start end_ es).
Definition arr_sort (c : Entry.t -> Entry.t -> Z) (l : loc) : M loc :=
  let* es := arr_read l in do arr_write l (sort c es) in ret l.

(** ** Requests and responses *)

Module Pagination.
Record t := mk {
  page : Z;
  size : Z;
  totalPages : Z;
  totalEntries : Z }.
End Pagination.

Module Compact.
Record t := mk {
  id : string;
  title : string;
  status : Status;
  priority : Priority;
  metrics : Metrics.t;
  entryCount : Z;
  highPriorityRate : Q }.
End Compact.

Module Full.
Record t := mk {
  id : string;
  title : string;
  status : Status;
  priority : Priority;
  createdAt : string;
  updatedAt : string;
  version : Z;
  metrics : Metrics.t;
  entries : option (list Entry.t);
  entries_pagination : option Pagination.t }.
End Full.

(** The JSON bodies the handlers send. [ReportJson] is [res.json(report)]:
    the record together with the elements of its entries array. *)
Inductive Body :=
| Error (code message : string)
| ValidationError
| ReportJson (report : Report.t) (entries : list Entry.t)
| CompactJson (c : Compact.t)
| FullJson (f : Full.t)
| Uploaded (message : string) (attachment : Attachment.t).

Module Response.
Record t := mk {
  status : Z;
  body : Body }.
End Response.

Definition not_found (id : string) : Response.t :=
  Response.mk 404 (Error "NOT_FOUND" ("Report with id " +:+ id +:+ " not found")).

(** [req.query] of GET /reports/:id; [entries_page] and [entries_size] hold
    what [parseInt] makes of the parameter. *)
Module Query.
Record t := mk {
  include : option string;
  view : option string;
  entries_highPriorityOnly : option string;
  entries_sort : option string;
  entries_page : option Z;
  entries_size : option Z }.
End Query.

(** [req.body] of POST /reports and the parse by [createReportSchema]. *)
Module CreateBody.
Record t := mk {
  title : option string;
  status : option Status;
  priority : option Priority }.
End CreateBody.

Definition createReportSchema (b : CreateBody.t) : option (string * Status * Priority) :=
  match CreateBody.title b with
  | Some title =>
      if decide (title = "") then None
      else Some (title, default draft (CreateBody.status b),
                 default medium (CreateBody.priority b))
  | None => None
  end.

(** [req.body] of PUT /reports/:id and the parse by [updateReportSchema].
    [version] is any number for the schema; the embedding keeps the
    integers (a fractional version is truthy and differs from every stored
    version, as a stale integer does). *)
Module Updates.
Record t := mk {
  title : option string;
  status : option Status;
  priority : option Priority;
  version : option Z }.
End Updates.

Definition updateReportSchema (b : Updates.t) : option Updates.t :=
  if decide (Updates.title b = Some "") then None else Some b.

(** [req.file] as multer leaves it. *)
Module File.
Record t := mk {
  filename : string;
  originalname : string;
  mimetype : string;
  size : Z }.
End File.

(** ** The handlers *)

(** POST /reports. [now1] and [now2] are the two readings of the clock,
    [uuid] the identifier [uuidv4()] returns. *)
Definition post_report (uuid now1 now2 : string) (body : CreateBody.t) : M Response.t :=
  match createReportSchema body with
  | None => ret (Response.mk 400 ValidationError)
  | Some (title, status, priority) =>
      let* entries := arr_new [] in
      let newReport :=
        Report.mk uuid title status priority now1 now2 1 entries
                  (Metrics.mk 0 0) None None in
      do reports_push newReport in
      let* es := arr_read entries in
      ret (Response.mk 201 (ReportJson newReport es))
  end.

(** POST /reports/:id/attachment. *)
Definition post_attachment (now : string) (id : string) (file : option File.t)
  : M Response.t :=
  let* found := reports_find id in
  match found with
  | None => ret (not_found id)
  | Some (k, report) =>
      match file with
      | None => ret (Response.mk 400 (Error "NO_FILE" "No file uploaded"))
      | Some file =>
          let fileUrl := "/uploads/" +:+ File.filename file in
          let attachment :=
            Attachment.mk (File.filename file) (File.originalname file)
                          (File.mimetype file) (File.size file) fileUrl in
          let report :=
            Report.set_attachments (Some (default [] (Report.attachments report))) report in
          let report :=
            Report.set_attachments
              (Some (default [] (Report.attachments report) ++ [attachment])) report in
          let auditEntry :=
            "Uploaded attachment: " +:+ Attachment.originalName attachment
              +:+ " at " +:+ now in
          let report :=
            Report.set_auditLogs (Some (default [] (Report.auditLogs report))) report in
          let report :=
            Report.set_auditLogs
              (Some (default [] (Report.auditLogs report) ++ [auditEntry])) report in
          do reports_store k report in
          ret (Response.mk 201 (Uploaded "File uploaded" attachment))
      end
  end.

(** The pagination block of GET /reports/:id, on the array at [entries]. *)
Definition paginate (query : Query.t) (entries : loc)
  : M (list Entry.t * Pagination.t) :=
  let page := js_or (Query.entries_page query) 1 in
  let size := js_or (Query.entries_size query) 10 in
  let validPage := Z.max page 1 in
  let validSize := Z.min (Z.max size 1) 100 in
  let* totalEntries := arr_length entries in
  let totalPages := ceil_div totalEntries validSize in
  let start := (validPage - 1) * validSize in
  let end_ := start + validSize in
  let* sliced := arr_slice start end_ entries in
  let* result_entries := arr_read sliced in
  ret (result_entries, Pagination.mk validPage validSize totalPages totalEntries).

(** GET /reports/:id. *)
Definition get_report (id : string) (query : Query.t) : M Response.t :=
  let* found := reports_find id in
  match found with
  | None => ret (not_found id)
  | Some (_, report) =>
      if decide (Query.view query = Some "compact") then
        let* totalEntries := arr_length (Report.entries report) in
        let* highs := arr_filter is_high (Report.entries report) in
        let* highPriorityEntries := arr_length highs in
        let highPriorityRate :=
          if 0 <? totalEntries
          then (inject_Z highPriorityEntries / inject_Z totalEntries)%Q
          else 0%Q in
        ret (Response.mk 200 (CompactJson
               (Compact.mk (Report.id report) (Report.title report)
                           (Report.status report) (Report.priority report)
                           (Report.metrics report) totalEntries highPriorityRate)))
      else
        let result entries entries_pagination :=
          Full.mk (Report.id report) (Report.title report) (Report.status report)
                  (Report.priority report) (Report.createdAt report)
                  (Report.updatedAt report) (Report.version report)
                  (Report.metrics report) entries entries_pagination in
        let plain := ret (Response.mk 200 (FullJson (result None None))) in
        if negb (truthy_string (Query.include query)) then plain else
        let fields := map trim (split "," (default "" (Query.include query))) in
        if negb (includes "entries" fields) then plain else
          let* entries := arr_spread (Report.entries report) in
          let highPriorityOnly :=
            bool_decide (Query.entries_highPriorityOnly query = Some "true") in
          let* entries :=
            (if highPriorityOnly then arr_filter is_high entries else ret entries) in
          let sortParam := Query.entries_sort query in
          let* entries :=
            (if truthy_string sortParam then
               let '(field, order) := sort_request (default "" sortParam) in
               arr_sort (compareFn field order) entries
             else ret entries) in
          let* p := paginate query entries in
          ret (Response.mk 200 (FullJson (result (Some (fst p)) (Some (snd p)))))
  end.

(** PUT /reports/:id. *)
Definition put_report (now : string) (id : string) (body : Updates.t) : M Response.t :=
  match updateReportSchema body with
  | None => ret (Response.mk 400 ValidationError)
  | Some updates =>
      let* found := reports_find id in
      match found with
      | None => ret (not_found id)
      | Some (k, report) =>
          if truthy_number (Updates.version updates)
             && bool_decide (Updates.version updates <> Some (Report.version report))
          then
            ret (Response.mk 409
                   (Error "VERSION_CONFLICT"
                      ("Report version mismatch. Current version is "
                         +:+ pretty (Report.version report))))
          else
            let changedFields : list string := [] in
            let '(report, changedFields) :=
              match Updates.title updates with
              | Some title =>
                  if decide (title <> Report.title report)
                  then (Report.set_title title report, changedFields ++ ["title"])
                  else (report, changedFields)
              | None => (report, changedFields)
              end in
            let '(report, changedFields) :=
              match Updates.status updates with
              | Some status =>
                  if decide (status <> Report.status report)
                  then (Report.set_status status report, changedFields ++ ["status"])
                  else (report, changedFields)
              | None => (report, changedFields)
              end in
            let '(report, changedFields) :=
              match Updates.priority updates with
              | Some priority =>
                  if decide (priority <> Report.priority report)
                  then (Report.set_priority priority report, changedFields ++ ["priority"])
                  else (report, changedFields)
              | None => (report, changedFields)
              end in
            let report := Report.set_updatedAt now report in
            let report := Report.set_version (Report.version report + 1) report in
            let auditEntry :=
              "Updated fields: " +:+ js_or_string (join ", " changedFields) "none"
                +:+ " at " +:+ Report.updatedAt report in
            let report :=
              Report.set_auditLogs (Some (default [] (Report.auditLogs report))) report in
            let report :=
              Report.set_auditLogs
                (Some (default [] (Report.auditLogs report) ++ [auditEntry])) report in
            do reports_store k report in
            let* es := arr_read (Report.entries report) in
            ret (Response.mk 200 (ReportJson report es))
      end
  end.

(** ** Readings of the handlers used in the statements *)

(** The three stages of the entries block, as functions of the elements. *)
Definition filter_stage (query : Query.t) (es : list Entry.t) : list Entry.t :=
  if bool_decide (Query.entries_highPriorityOnly query = Some "true")
  then List.filter is_high es else es.

Definition sort_stage (query : Query.t) (es : list Entry.t) : list Entry.t :=
  if truthy_string (Query.entries_sort query) then
    let '(field, order) := sort_request (default "" (Query.entries_sort query)) in
    sort (compareFn field order) es
  else es.

Definition valid_page (query : Query.t) : Z :=
  Z.max (js_or (Query.entries_page query) 1) 1.
Definition valid_size (query : Query.t) : Z :=
  Z.min (Z.max (js_or (Query.entries_size query) 10) 1) 100.

Definition page_stage (query : Query.t) (es : list Entry.t)
  : list Entry.t * Pagination.t :=
  let start := (valid_page query - 1) * valid_size query in
  (slice start (start + valid_size query) es,
   Pagination.mk (valid_page query) (valid_size query)
     (ceil_div (Z.of_nat (length es)) (valid_size query))
     (Z.of_nat (length es))).

Definition entry_query (query : Query.t) (es : list Entry.t)
  : list Entry.t * Pagination.t :=
  page_stage query (sort_stage query (filter_stage query es)).

(** Whether the request asks for the entries. *)
Definition wants_entries (query : Query.t) : bool :=
  truthy_string (Query.include query)
  && includes "entries" (map trim (split "," (default "" (Query.include query)))).

Definition full_of (report : Report.t) entries entries_pagination : Full.t :=
  Full.mk (Report.id report) (Report.title report) (Report.status report)
          (Report.priority report) (Report.createdAt report)
          (Report.updatedAt report) (Report.version report)
          (Report.metrics report) entries entries_pagination.

Definition find_report (id : string) (w : World) : option (nat * Report.t) :=
  list_find (fun r => Report.id r = id) (reports w).

Definition rate_of (highPriorityEntries totalEntries : Z) : Q :=
  if 0 <? totalEntries
  then (inject_Z highPriorityEntries / inject_Z totalEntries)%Q
  else 0%Q.

(** The version check of the handler. *)
Definition conflicts (updates : Updates.t) (report : Report.t) : bool :=
  truthy_number (Updates.version updates)
  && bool_decide (Updates.version updates <> Some (Report.version report)).

(** The names the handler pushes onto [changedFields]. *)
Definition changed_fields (updates : Updates.t) (report : Report.t) : list string :=
  (match Updates.title updates with
   | Some v => if decide (v <> Report.title report) then ["title"] else []
   | None => []
   end)
  ++ (match Updates.status updates with
      | Some v => if decide (v <> Report.status report) then ["status"] else []
      | None => []
      end)
  ++ (match Updates.priority updates with
      | Some v => if decide (v <> Report.priority report) then ["priority"] else []
      | None => []
      end).

Definition audit_line (now : string) (changedFields : list string) : string :=
  "Updated fields: " +:+ js_or_string (join ", " changedFields) "none"
    +:+ " at " +:+ now.

(** The report once the handler is through with it. *)
Definition updated (now : string) (updates : Updates.t) (report : Report.t) : Report.t :=
  Report.mk (Report.id report)
    (default (Report.title report) (Updates.title updates))
    (default (Report.status report) (Updates.status updates))
    (default (Report.priority report) (Updates.priority updates))
    (Report.createdAt report) now (Report.version report + 1)
    (Report.entries report) (Report.metrics report)
    (Some (default [] (Report.auditLogs report)
           ++ [audit_line now (changed_fields updates report)]))
    (Report.attachments report).

Definition conflict_response (report : Report.t) : Response.t :=
  Response.mk 409
    (Error "VERSION_CONFLICT"
       ("Report version mismatch. Current version is "
          +:+ pretty (Report.version report))).

Definition attachment_of (file : File.t) : Attachment.t :=
  Attachment.mk (File.filename file) (File.originalname file)
                (File.mimetype file) (File.size file)
                ("/uploads/" +:+ File.filename file).

Definition upload_line (now : string) (file : File.t) : string :=
  "Uploaded attachment: " +:+ File.originalname file +:+ " at " +:+ now.

(** The report once the attachment handler is through with it. *)
Definition attached (now : string) (file : File.t) (report : Report.t) : Report.t :=
  Report.mk (Report.id report) (Report.title report) (Report.status report)
    (Report.priority report) (Report.createdAt report) (Report.updatedAt report)
    (Report.version report) (Report.entries report) (Report.metrics report)
    (Some (default [] (Report.auditLogs report) ++ [upload_line now file]))
    (Some (default [] (Report.attachments report) ++ [attachment_of file])).

(** The record POST /reports pushes. *)
Definition created (uuid now1 now2 : string) title status priority (entries : loc)
  : Report.t :=
  Report.mk uuid title status priority now1 now2 1 entries (Metrics.mk 0 0) None None.

(** ** Sequences of requests *)

Inductive Request :=
| PostReport (uuid now1 now2 : string) (body : CreateBody.t)
| PostAttachment (now id : string) (file : option File.t)
| GetReport (id : string) (query : Query.t)
| PutReport (now id : string) (body : Updates.t).

(** The router: one handler per route. *)
Definition handle (req : Request) : M Response.t :=
  match req with
  | PostReport uuid now1 now2 body => post_report uuid now1 now2 body
  | PostAttachment now id file => post_attachment now id file
  | GetReport id query => get_report id query
  | PutReport now id body => put_report now id body
  end.

(** The requests are served one after the other. *)
Fixpoint serve (reqs : list Request) : M (list Response.t) :=
  match reqs with
  | [] => ret []
  | req :: reqs' =>
      let* res := handle req in
      let* rest := serve reqs' in
      ret (res :: rest)
  end.

(** Whether [id] resolves to the report in slot [k]. *)
Definition targets (k : nat) (id : string) (w : World) : bool :=
  bool_decide (fst <$> find_report id w = Some k).

(** A successful update of, respectively attachment append to, the report
    in slot [k]. *)
Definition is_update (k : nat) (req : Request) (w : World) : bool :=
  match req with
  | PutReport _ id _ =>
      targets k id w && bool_decide (Response.status (fst (handle req w)) = 200)
  | _ => false
  end.

Definition is_append (k : nat) (req : Request) (w : World) : bool :=
  match req with
  | PostAttachment _ id _ =>
      targets k id w && bool_decide (Response.status (fst (handle req w)) = 201)
  | _ => false
  end.

(** How many of the requests satisfy [f] in the world they are served in. *)
Fixpoint count_along (f : Request -> World -> bool) (reqs : list Request) (w : World)
  : nat :=
  match reqs with
  | [] => 0
  | req :: reqs' =>
      ((if f req w then 1 else 0) + count_along f reqs' (snd (handle req w)))%nat
  end.

(** ** Vocabulary of the statements *)

(** The ordinal the comparator gives an entry. *)
Definition ordinal (e : Entry.t) : Z := priorityMap (Entry.priority e).

Definition same_priority (p : Priority) (e : Entry.t) : bool :=
  bool_decide (Entry.priority e = p).

(** Metrics computed from the elements of an entries array. *)
Definition live_metrics (es : list Entry.t) : Metrics.t :=
  Metrics.mk (Z.of_nat (length es)) (Z.of_nat (length (List.filter is_high es))).

(** A patch that changes no field of the report: each supplied field has
    the current value. *)
Definition changes_nothing (updates : Updates.t) (report : Report.t) : Prop :=
  (forall v, Updates.title updates = Some v -> v = Report.title report)
  /\ (forall v, Updates.status updates = Some v -> v = Report.status report)
  /\ (forall v, Updates.priority updates = Some v -> v = Report.priority report).

(** ** Authentication, authorisation and login

    [jwt.verify] and [jwt.sign] belong to a library: they are parameters.
    [verify token] is [None] when [jwt.verify] throws and the [role] of the
    payload otherwise (a payload need not have one). *)

Module User.
Record t := mk { role : option string }.
End User.

Definition unauthorized (message : string) : Response.t :=
  Response.mk 401 (Error "UNAUTHORIZED" message).

Definition forbidden : Response.t :=
  Response.mk 403 (Error "FORBIDDEN" "Insufficient permissions").

Section Jwt.
Variable verify : string -> option (option string).
Variable sign : string -> string.

(** [authenticateJWT]: the response it sends, or [req.user] when it calls
    [next()]. *)
Definition authenticateJWT (authorization : option string) : Response.t + User.t :=
  let authHeader := authorization in
  if negb (truthy_string authHeader) then
    inl (unauthorized "Missing Authorization header")
  else
    let token := split " " (default "" authHeader) !! 1%nat in
    if negb (truthy_string token) then inl (unauthorized "Token missing")
    else
      match verify (default "" token) with
      | Some role => inr (User.mk role)
      | None => inl (unauthorized "Invalid token")
      end.

(** [authorizeRole(roles)]: the response it sends, or [None] when it calls
    [next()]. *)
Definition authorizeRole (roles : list string) (user : option User.t)
  : option Response.t :=
  match user with
  | None => Some forbidden
  | Some user =>
      if negb (match User.role user with
               | Some role => includes role roles
               | None => false
               end)
      then Some forbidden else None
  end.

(** [generateToken]. *)
Definition generateToken (role : string) : string := sign role.

(** POST /auth/login: [LoginOk token role] is the body [{ token, role }]. *)
Inductive LoginResult :=
| LoginError (res : Response.t)
| LoginOk (token role : string).

Definition login (role : option string) : LoginResult :=
  if bool_decide (role <> Some "reader") && bool_decide (role <> Some "editor") then
    LoginError (Response.mk 400 (Error "INVALID_ROLE" "Role must be reader or editor"))
  else
    let token := generateToken (default "" role) in
    LoginOk token (default "" role).

(** A route behind [authenticateJWT] and, when [roles] is given,
    [authorizeRole(roles)]. *)
Definition guarded (roles : option (list string)) (authorization : option string)
    (handler : M Response.t) : M Response.t :=
  match authenticateJWT authorization with
  | inl res => ret res
  | inr user =>
      match roles with
      | None => handler
      | Some roles =>
          match authorizeRole roles (Some user) with
          | Some res => ret res
          | None => handler
          end
      end
  end.

(** The routes as the router declares them; for the attachment route the
    upload middleware is taken to have passed the request on. *)
Definition route (authorization : option string) (req : Request) : M Response.t :=
  match req with
  | PostReport _ _ _ _ => guarded (Some ["editor"]) authorization (handle req)
  | PostAttachment _ _ _ => guarded (Some ["editor"]) authorization (handle req)
  | GetReport _ _ => guarded None authorization (handle req)
  | PutReport _ _ _ => guarded (Some ["editor"]) authorization (handle req)
  end.
End Jwt.

(** ** Further vocabulary *)

(** The [entries] and [entries_pagination] keys of a response body. *)
Definition entries_of (res : Response.t) : option (list Entry.t) :=
  match Response.body res with
  | FullJson f => Full.entries f
  | _ => None
  end.

Definition pagination_of (res : Response.t) : option Pagination.t :=
  match Response.body res with
  | FullJson f => Full.entries_pagination f
  | _ => None
  end.

(** The same query for another page, and with another sort parameter. *)
Definition with_page (p : Z) (query : Query.t) : Query.t :=
  Query.mk (Query.include query) (Query.view query)
           (Query.entries_highPriorityOnly query) (Query.entries_sort query)
           (Some p) (Query.entries_size query).

Definition with_sort (s : option string) (query : Query.t) : Query.t :=
  Query.mk (Query.include query) (Query.view query)
           (Query.entries_highPriorityOnly query) s
           (Query.entries_page query) (Query.entries_size query).

(** The page numbers 1, ..., n. *)
Definition page_numbers (n : Z) : list Z :=
  map (fun i : nat => Z.of_nat (S i)) (seq 0 (Z.to_nat n)).

(** The own string fields of an entry. *)
Definition string_key (field : string) (e : Entry.t) : string :=
  if decide (field = "id") then Entry.id e
  else if decide (field = "content") then Entry.content e
  else Entry.createdAt e.

Definition string_le (s t : string) : Prop := String.leb s t = true.

(** What one request makes of the report in slot [k]. *)
Definition step_report (k : nat) (req : Request) (w : World) (r : Report.t)
  : Report.t :=
  match req with
  | PutReport now _ body => if is_update k req w then updated now body r else r
  | PostAttachment now _ (Some file) =>
      if is_append k req w then attached now file r else r
  | _ => r
  end.

(** The audit lines and the attachments of a report. *)
Definition audit_log (r : Report.t) : list string := default [] (Report.auditLogs r).
Definition attachment_list (r : Report.t) : list Attachment.t :=
  default [] (Report.attachments r).

(** A later state of the same report. *)
Definition later_state (r r' : Report.t) : Prop :=
  Report.id r' = Report.id r
  /\ Report.createdAt r' = Report.createdAt r
  /\ Report.entries r' = Report.entries r
  /\ Report.metrics r' = Report.metrics r
  /\ Report.version r <= Report.version r'
  /\ audit_log r `prefix_of` audit_log r'
  /\ attachment_list r `prefix_of` attachment_list r'.

(** The stored report a request is addressed to, and the reports a request
    adds to the store. *)
Definition req_target (req : Request) (w : World) : option (nat * Report.t) :=
  match req with
  | PutReport _ id _ => find_report id w
  | PostAttachment _ id _ => find_report id w
  | _ => None
  end.

Definition req_created (req : Request) (w : World) : list Report.t :=
  match req with
  | PostReport uuid now1 now2 body =>
      match createReportSchema body with
      | Some (title, status, priority) =>
          [created uuid now1 now2 title status priority (length (arrays w))]
      | None => []
      end
  | _ => []
  end.

(** Every report of the world has an empty entries array and zero metrics. *)
Definition no_entries (w : World) : Prop :=
  forall k r,
    reports w !! k = Some r ->
    arrays w !! Report.entries r = Some [] /\ Report.metrics r = Metrics.mk 0 0.

(** Sample tokens: ["tok-" ++ role] is the token of [role]. *)
Definition sample_sign (role : string) : string := "tok-" +:+ role.
Definition sample_verify (token : string) : option (option string) :=
  if String.prefix "tok-" token
  then Some (Some (String.substring 4 (String.length token - 4) token))
  else None.

(** ** Sample data *)

Definition entry (id : string) (p : Priority) : Entry.t :=
  Entry.mk id "note" "2025-11-25T11:00:00.000Z" p.

Definition numbered (n : nat) : list Entry.t :=
  map (fun i : nat => entry (pretty i) medium) (seq 0 n).

Definition five : list Entry.t :=
  [entry "a" low; entry "b" high; entry "c" medium; entry "d" high; entry "e" low].

(** A report at version 2 whose entries array is at location 0. *)
Definition report_v2 : Report.t :=
  Report.mk "r1" "Q1 final" draft medium "t0" "t1" 2 0%nat (Metrics.mk 0 0)
            (Some ["Updated fields: title at t1"]) None.

Definition world_of (es : list Entry.t) : World := mkWorld [report_v2] [es].

Definition query_entries (hp sort : option string) (page size : option Z) : Query.t :=
  Query.mk (Some "entries") None hp sort page size.

Definition query_compact : Query.t :=
  Query.mk None (Some "compact") None None None None.

Definition only_version (v : Z) : Updates.t := Updates.mk None None None (Some v).

Definition pdf : File.t := File.mk "file-1.pdf" "q1.pdf" "application/pdf" 1024.

(** ** Facts about the JavaScript operations *)

Lemma ceil_div_floor (a b : Z) : 0 < b -> ceil_div a b = - ((- a) / b).
Proof.
  intros Hb. destruct b as [|p|p]; try lia.
  unfold ceil_div, Qceiling, Qfloor, Qdiv, Qmult, Qinv, Qopp, inject_Z. simpl.
  rewrite Z.mul_1_r. reflexivity.
Qed.

(** [ceil_div a b] is the least number of windows of width [b] that cover
    [a] elements. *)
Lemma ceil_div_least (a b : Z) :
  0 < b -> (ceil_div a b - 1) * b < a <= ceil_div a b * b.
Proof.
  intros Hb. rewrite ceil_div_floor by done.
  pose proof (Z.div_mod (- a) b ltac:(lia)) as Hdm.
  pose proof (Z.mod_pos_bound (- a) b Hb) as Hm.
  generalize dependent ((- a) / b). generalize dependent ((- a) mod b).
  intros r Hr q Hq.
  assert (a = - (b * q) - r) as -> by lia. split; nia.
Qed.

Lemma ceil_div_nonneg (a b : Z) : 0 < b -> 0 <= a -> 0 <= ceil_div a b.
Proof. intros Hb Ha. pose proof (ceil_div_least a b Hb). nia. Qed.

(** A window that starts at a valid offset: [slice] is drop-then-take. *)
Lemma slice_window {A} (start width : Z) (a : list A) :
  0 <= start -> 0 <= width ->
  slice start (start + width) a = take (Z.to_nat width) (drop (Z.to_nat start) a).
Proof.
  intros Hs Hw. unfold slice.
  destruct (Z.ltb_spec start 0); [lia|].
  destruct (Z.ltb_spec (start + width) 0); [lia|].
  destruct (Z_lt_le_dec (Z.of_nat (length a)) start) as [Hout|Hin].
  - rewrite (drop_ge a (Z.to_nat start)) by lia.
    rewrite take_nil.
    replace (Z.to_nat _) with 0%nat by lia. reflexivity.
  - rewrite (Z.min_l start) by lia.
    destruct (Z_lt_le_dec (Z.of_nat (length a)) (start + width)) as [Hcut|Hfit].
    + rewrite (Z.min_r (start + width)) by lia.
      rewrite !take_ge; [done| |]; rewrite length_drop; lia.
    + rewrite (Z.min_l (start + width)) by lia. f_equal. lia.
Qed.

Lemma slice_beyond {A} (start end_ : Z) (a : list A) :
  Z.of_nat (length a) <= start -> slice start end_ a = [].
Proof.
  intros Hout. unfold slice.
  destruct (Z.ltb_spec start 0); [lia|].
  rewrite (Z.min_r start) by lia. rewrite drop_ge by lia. apply take_nil.
Qed.

Section SortFacts.
Context {A : Type} (c : A -> A -> Z).

Lemma sort_insert_perm (x : A) (a : list A) :
  Permutation (sort_insert c x a) (x :: a).
Proof.
  induction a as [|y a IH]; simpl; [done|].
  destruct (0 <? c x y); [|done].
  rewrite IH. apply perm_swap.
Qed.

Lemma sort_perm (a : list A) : Permutation (sort c a) a.
Proof.
  induction a as [|x a IH]; simpl; [done|].
  rewrite sort_insert_perm. by constructor.
Qed.

Lemma sort_length (a : list A) : length (sort c a) = length a.
Proof. apply Permutation_length, sort_perm. Qed.

(** Stability: elements that never compare greater than one another keep
    their relative order, whatever else is in the array. *)
Section Stable.
Context (P : A -> bool).
Hypothesis ties : forall x y, P x = true -> P y = true -> c x y <= 0.

Lemma filter_sort_insert (x : A) (a : list A) :
  List.filter P (sort_insert c x a) = List.filter P (x :: a).
Proof.
  induction a as [|y a IH]; [done|].
  simpl sort_insert. destruct (Z.ltb_spec 0 (c x y)) as [Hgt|Hle]; [|done].
  simpl in *. rewrite IH.
  destruct (P x) eqn:Hx, (P y) eqn:Hy; try done.
  specialize (ties x y Hx Hy). lia.
Qed.

Lemma filter_sort (a : list A) : List.filter P (sort c a) = List.filter P a.
Proof.
  induction a as [|x a IH]; [done|].
  simpl sort. rewrite filter_sort_insert. simpl. by rewrite IH.
Qed.
End Stable.

(** Order: when [R] holds in the direction the comparator chooses, the
    result is sorted by [R]. *)
Section Ordered.
Context (R : A -> A -> Prop).
Hypothesis R_trans : forall x y z, R x y -> R y z -> R x z.
Hypothesis keep : forall x y, c x y <= 0 -> R x y.
Hypothesis swap : forall x y, 0 < c x y -> R y x.

Lemma sort_insert_sorted (x : A) (a : list A) :
  StronglySorted R a -> StronglySorted R (sort_insert c x a).
Proof.
  induction 1 as [|y a Hs IH Hall]; simpl.
  - repeat constructor.
  - destruct (Z.ltb_spec 0 (c x y)) as [Hgt|Hle].
    + constructor; [done|].
      rewrite sort_insert_perm. constructor; [by apply swap | done].
    + constructor; [by constructor|].
      constructor; [by apply keep|].
      eapply Forall_impl; [exact Hall|].
      intros z Hz. eapply R_trans; [by apply keep | done].
Qed.

Lemma sort_sorted (a : list A) : StronglySorted R (sort c a).
Proof.
  induction a as [|x a IH]; simpl; [constructor|].
  by apply sort_insert_sorted.
Qed.
End Ordered.
End SortFacts.

(** ** What GET /reports/:id computes *)

Lemma elements_new rs (A : list (list Entry.t)) es :
  elements (mkWorld rs (A ++ [es])) (length A) = es.
Proof. unfold elements. simpl. by rewrite list_lookup_middle. Qed.

Lemma insert_new (A : list (list Entry.t)) es es' :
  <[length A := es']> (A ++ [es]) = A ++ [es'].
Proof.
  rewrite insert_app_r_alt by lia. by rewrite Nat.sub_diag.
Qed.

Lemma arr_spread_run l w :
  arr_spread l w =
    (length (arrays w), mkWorld (reports w) (arrays w ++ [elements w l])).
Proof. reflexivity. Qed.

Lemma arr_filter_run f l w :
  arr_filter f l w =
    (length (arrays w),
     mkWorld (reports w) (arrays w ++ [List.filter f (elements w l)])).
Proof. reflexivity. Qed.

Lemma arr_length_run l w : arr_length l w = (Z.of_nat (length (elements w l)), w).
Proof. reflexivity. Qed.

Lemma paginate_run query rs (A : list (list Entry.t)) es :
  paginate query (length A) (mkWorld rs (A ++ [es])) =
    (page_stage query es,
     mkWorld rs ((A ++ [es]) ++ [fst (page_stage query es)])).
Proof.
  unfold paginate, arr_slice, arr_read, arr_new, bind, ret.
  rewrite arr_length_run, elements_new. cbn [arrays reports].
  rewrite elements_new. reflexivity.
Qed.

Lemma sort_block_run query rs (A : list (list Entry.t)) es :
  (if truthy_string (Query.entries_sort query) then
     let '(field, order) := sort_request (default "" (Query.entries_sort query)) in
     arr_sort (compareFn field order) (length A)
   else ret (length A)) (mkWorld rs (A ++ [es])) =
    (length A, mkWorld rs (A ++ [sort_stage query es])).
Proof.
  unfold sort_stage. destruct (truthy_string _); [|done].
  destruct (sort_request _) as [field order].
  unfold arr_sort, arr_read, arr_write, bind, ret. cbn [arrays reports].
  by rewrite elements_new, insert_new.
Qed.

(** The full view with entries: the response is [entry_query] of the
    report's entries, and the world only gains the arrays the handler
    built. *)
Lemma get_report_entries (w : World) (id : string) (query : Query.t) k report :
  find_report id w = Some (k, report) ->
  Query.view query <> Some "compact" ->
  wants_entries query = true ->
  exists fresh,
    get_report id query w =
      (let p := entry_query query (elements w (Report.entries report)) in
       Response.mk 200 (FullJson (full_of report (Some (fst p)) (Some (snd p)))),
       mkWorld (reports w) (arrays w ++ fresh)).
Proof.
  intros Hfind Hview Hwant. unfold find_report in Hfind.
  apply andb_prop in Hwant as [Hinc Hent].
  destruct w as [rs A]. cbn [reports arrays] in *.
  unfold get_report, bind, reports_find. cbn [reports]. rewrite Hfind.
  destruct (decide _) as [|_]; [done|].
  rewrite Hinc, Hent. cbn [negb].
  rewrite arr_spread_run. cbn [reports arrays].
  unfold entry_query, filter_stage.
  destruct (bool_decide _).
  - rewrite arr_filter_run. cbn [reports arrays]. rewrite elements_new.
    rewrite (sort_block_run query rs (A ++ [_])).
    rewrite (paginate_run query rs (A ++ [_])).
    eexists [_; _; _]. cbn zeta. rewrite <- !app_assoc. reflexivity.
  - unfold ret at 1.
    rewrite (sort_block_run query rs A).
    rewrite (paginate_run query rs A).
    eexists [_; _]. cbn zeta. rewrite <- !app_assoc. reflexivity.
Qed.

(** The compact view. *)
Lemma get_report_compact (w : World) (id : string) (query : Query.t) k report :
  find_report id w = Some (k, report) ->
  Query.view query = Some "compact" ->
  get_report id query w =
    (let es := elements w (Report.entries report) in
     let totalEntries := Z.of_nat (length es) in
     let highPriorityEntries := Z.of_nat (length (List.filter is_high es)) in
     (Response.mk 200 (CompactJson
        (Compact.mk (Report.id report) (Report.title report)
                    (Report.status report) (Report.priority report)
                    (Report.metrics report) totalEntries
                    (rate_of highPriorityEntries totalEntries))),
      mkWorld (reports w) (arrays w ++ [List.filter is_high es]))).
Proof.
  intros Hfind Hview. unfold find_report in Hfind.
  destruct w as [rs A]. cbn [reports arrays] in *.
  unfold get_report, bind, reports_find. cbn [reports]. rewrite Hfind.
  destruct (decide _) as [_|]; [|done].
  rewrite arr_length_run, arr_filter_run. cbn [reports arrays].
  rewrite arr_length_run, elements_new. reflexivity.
Qed.

(** The full view without entries. *)
Lemma get_report_plain (w : World) (id : string) (query : Query.t) k report :
  find_report id w = Some (k, report) ->
  Query.view query <> Some "compact" ->
  wants_entries query = false ->
  get_report id query w =
    (Response.mk 200 (FullJson (full_of report None None)), w).
Proof.
  intros Hfind Hview Hwant. unfold find_report in Hfind.
  unfold get_report, bind, reports_find. rewrite Hfind.
  destruct (decide _) as [|_]; [done|].
  unfold wants_entries in Hwant.
  destruct (truthy_string _); [|done].
  destruct (includes _ _); done.
Qed.

Lemma get_report_missing (w : World) (id : string) (query : Query.t) :
  find_report id w = None -> get_report id query w = (not_found id, w).
Proof.
  intros Hfind. unfold find_report in Hfind.
  unfold get_report, bind, reports_find. by rewrite Hfind.
Qed.

(** Whatever the request, GET only adds arrays to the world. *)
Lemma get_report_frame (w : World) (id : string) (query : Query.t) :
  exists fresh,
    snd (get_report id query w) = mkWorld (reports w) (arrays w ++ fresh).
Proof.
  destruct (find_report id w) as [[k report]|] eqn:Hfind.
  - destruct (decide (Query.view query = Some "compact")) as [Hview|Hview].
    + rewrite (get_report_compact _ _ _ _ _ Hfind Hview). by eexists [_].
    + destruct (wants_entries query) eqn:Hwant.
      * destruct (get_report_entries _ _ _ _ _ Hfind Hview Hwant) as [fresh ->].
        by exists fresh.
      * rewrite (get_report_plain _ _ _ _ _ Hfind Hview Hwant).
        exists []. destruct w. simpl. by rewrite app_nil_r.
  - rewrite (get_report_missing _ _ _ Hfind).
    exists []. destruct w. simpl. by rewrite app_nil_r.
Qed.

(** ** What PUT /reports/:id computes *)

Lemma put_report_conflict (w : World) now id (updates : Updates.t) k report :
  updateReportSchema updates = Some updates ->
  find_report id w = Some (k, report) ->
  conflicts updates report = true ->
  put_report now id updates w = (conflict_response report, w).
Proof.
  intros Hvalid Hfind Hc. unfold find_report in Hfind. unfold conflicts in Hc.
  unfold put_report. rewrite Hvalid.
  unfold bind, reports_find. rewrite Hfind. by rewrite Hc.
Qed.

Lemma put_report_applied (w : World) now id (updates : Updates.t) k report :
  updateReportSchema updates = Some updates ->
  find_report id w = Some (k, report) ->
  conflicts updates report = false ->
  put_report now id updates w =
    (Response.mk 200
       (ReportJson (updated now updates report) (elements w (Report.entries report))),
     mkWorld (<[k := updated now updates report]> (reports w)) (arrays w)).
Proof.
  intros Hvalid Hfind Hc. unfold find_report in Hfind. unfold conflicts in Hc.
  unfold put_report. rewrite Hvalid.
  unfold bind, reports_find. rewrite Hfind, Hc.
  unfold updated, changed_fields, audit_line.
  destruct report as [i t s p ca ua v es m al at_].
  destruct updates as [[ut|] [us|] [up|] uv]; cbn [Updates.title Updates.status
    Updates.priority Report.title Report.status Report.priority];
    repeat (destruct (decide _) as [?|?%dec_stable]); subst; reflexivity.
Qed.

Lemma put_report_invalid (w : World) now id (body : Updates.t) :
  updateReportSchema body = None ->
  put_report now id body w = (Response.mk 400 ValidationError, w).
Proof. intros Hvalid. unfold put_report. by rewrite Hvalid. Qed.

Lemma put_report_missing (w : World) now id (updates : Updates.t) :
  updateReportSchema updates = Some updates ->
  find_report id w = None ->
  put_report now id updates w = (not_found id, w).
Proof.
  intros Hvalid Hfind. unfold find_report in Hfind.
  unfold put_report. rewrite Hvalid.
  unfold bind, reports_find. by rewrite Hfind.
Qed.

Lemma updateReportSchema_id (body updates : Updates.t) :
  updateReportSchema body = Some updates -> updates = body.
Proof. unfold updateReportSchema. destruct (decide _); congruence. Qed.

(** ** What the two POST handlers compute *)

Lemma post_attachment_applied (w : World) now id file k report :
  find_report id w = Some (k, report) ->
  post_attachment now id (Some file) w =
    (Response.mk 201 (Uploaded "File uploaded" (attachment_of file)),
     mkWorld (<[k := attached now file report]> (reports w)) (arrays w)).
Proof.
  intros Hfind. unfold find_report in Hfind.
  unfold post_attachment, bind, reports_find. rewrite Hfind. reflexivity.
Qed.

Lemma post_attachment_no_file (w : World) now id k report :
  find_report id w = Some (k, report) ->
  post_attachment now id None w =
    (Response.mk 400 (Error "NO_FILE" "No file uploaded"), w).
Proof.
  intros Hfind. unfold find_report in Hfind.
  unfold post_attachment, bind, reports_find. by rewrite Hfind.
Qed.

Lemma post_attachment_missing (w : World) now id file :
  find_report id w = None -> post_attachment now id file w = (not_found id, w).
Proof.
  intros Hfind. unfold find_report in Hfind.
  unfold post_attachment, bind, reports_find. by rewrite Hfind.
Qed.

Lemma post_report_created (w : World) uuid now1 now2 body title status priority :
  createReportSchema body = Some (title, status, priority) ->
  post_report uuid now1 now2 body w =
    (let new := created uuid now1 now2 title status priority (length (arrays w)) in
     (Response.mk 201 (ReportJson new []),
      mkWorld (reports w ++ [new]) (arrays w ++ [[]]))).
Proof.
  intros Hvalid. unfold post_report. rewrite Hvalid.
  unfold bind, arr_new, reports_push, arr_read, ret. cbn [reports arrays].
  by rewrite elements_new.
Qed.

Lemma post_report_invalid (w : World) uuid now1 now2 body :
  createReportSchema body = None ->
  post_report uuid now1 now2 body w = (Response.mk 400 ValidationError, w).
Proof. intros Hvalid. unfold post_report. by rewrite Hvalid. Qed.

(** ** What a sequence of requests does to a report *)

Lemma serve_cons req reqs w :
  snd (serve (req :: reqs) w) = snd (serve reqs (snd (handle req w))).
Proof.
  simpl. unfold bind, ret.
  destruct (handle req w) as [res w1]. simpl.
  by destruct (serve reqs w1).
Qed.

Lemma find_report_slot id w k report :
  find_report id w = Some (k, report) -> reports w !! k = Some report.
Proof. unfold find_report. intros H. by apply list_find_Some in H as [? _]. Qed.

(** One request: the report in slot [k] stays in slot [k], and its version
    grows by one exactly when the request is a successful update of it. *)
Lemma handle_slot (req : Request) (w : World) k r :
  reports w !! k = Some r ->
  exists r',
    reports (snd (handle req w)) !! k = Some r'
    /\ Report.version r' =
         Report.version r + (if is_update k req w then 1 else 0).
Proof.
  intros Hk. destruct req as [uuid now1 now2 body|now id file|id query|now id body].
  - exists r. split; [|simpl; lia].
    simpl handle. destruct (createReportSchema body) as [[[t s] p]|] eqn:Hv.
    + rewrite (post_report_created _ _ _ _ _ _ _ _ Hv). simpl.
      by apply lookup_app_l_Some.
    + by rewrite (post_report_invalid _ _ _ _ _ Hv).
  - simpl handle. cbn [is_update]. rewrite Z.add_0_r.
    destruct (find_report id w) as [[k0 r0]|] eqn:Hfind.
    + destruct file as [file|].
      * rewrite (post_attachment_applied _ _ _ _ _ _ Hfind). simpl.
        pose proof (find_report_slot _ _ _ _ Hfind) as Hk0.
        destruct (decide (k = k0)) as [->|Hne].
        -- exists (attached now file r0).
           rewrite list_lookup_insert_eq by (by eapply lookup_lt_Some).
           split; [done|]. simpl. congruence.
        -- exists r. by rewrite list_lookup_insert_ne.
      * rewrite (post_attachment_no_file _ _ _ _ _ Hfind). by exists r.
    + rewrite (post_attachment_missing _ _ _ _ Hfind). by exists r.
  - simpl handle. cbn [is_update]. rewrite Z.add_0_r.
    destruct (get_report_frame w id query) as [fresh ->]. by exists r.
  - cbn [is_update]. simpl handle. unfold targets.
    destruct (updateReportSchema body) as [updates|] eqn:Hv.
    + apply updateReportSchema_id in Hv as Heq. subst updates.
      destruct (find_report id w) as [[k0 r0]|] eqn:Hfind.
      * pose proof (find_report_slot _ _ _ _ Hfind) as Hk0.
        destruct (conflicts body r0) eqn:Hc.
        -- rewrite (put_report_conflict _ _ _ _ _ _ Hv Hfind Hc). simpl.
           exists r. rewrite andb_false_r. split; [done|lia].
        -- rewrite (put_report_applied _ _ _ _ _ _ Hv Hfind Hc). simpl.
           rewrite andb_true_r.
           destruct (decide (k = k0)) as [->|Hne].
           ++ exists (updated now body r0).
              rewrite list_lookup_insert_eq by (by eapply lookup_lt_Some).
              rewrite bool_decide_true by done.
              split; [done|]. simpl. congruence.
           ++ exists r. rewrite list_lookup_insert_ne by done.
              rewrite bool_decide_false by congruence.
              split; [done|lia].
      * rewrite (put_report_missing _ _ _ _ Hv Hfind). simpl.
        exists r. split; [done|lia].
    + rewrite (put_report_invalid _ _ _ _ Hv). simpl.
      exists r. rewrite andb_false_r. split; [done|lia].
Qed.

Lemma serve_slot (reqs : list Request) (w : World) k r :
  reports w !! k = Some r ->
  exists r',
    reports (snd (serve reqs w)) !! k = Some r'
    /\ Report.version r' =
         Report.version r + Z.of_nat (count_along (is_update k) reqs w).
Proof.
  revert w r. induction reqs as [|req reqs IH]; intros w r Hk.
  - exists r. simpl. split; [done|lia].
  - destruct (handle_slot req w k r Hk) as (r1 & Hk1 & Hv1).
    destruct (IH _ _ Hk1) as (r' & Hk' & Hv').
    exists r'. rewrite serve_cons. split; [done|].
    rewrite Hv', Hv1. cbn [count_along].
    destruct (is_update k req w); lia.
Qed.

(** ** The priority comparator *)

Lemma compareFn_priority order a b :
  compareFn "priority" order a b =
    if ordinal a <? ordinal b then (if decide (order = Some "desc") then 1 else -1)
    else if ordinal b <? ordinal a then (if decide (order = Some "desc") then -1 else 1)
    else 0.
Proof. reflexivity. Qed.

Lemma priorityMap_inj p q : priorityMap p = priorityMap q -> p = q.
Proof. by destruct p, q. Qed.

Lemma compareFn_priority_asc order a b :
  order <> Some "desc" ->
  compareFn "priority" order a b = Z.sgn (ordinal a - ordinal b).
Proof.
  intros Ho. rewrite compareFn_priority.
  destruct (decide _) as [|_]; [done|].
  destruct (Z.ltb_spec (ordinal a) (ordinal b)); [lia|].
  destruct (Z.ltb_spec (ordinal b) (ordinal a)); lia.
Qed.

Lemma compareFn_priority_desc a b :
  compareFn "priority" (Some "desc") a b = Z.sgn (ordinal b - ordinal a).
Proof.
  rewrite compareFn_priority.
  destruct (decide _) as [_|]; [|done].
  destruct (Z.ltb_spec (ordinal a) (ordinal b)); [lia|].
  destruct (Z.ltb_spec (ordinal b) (ordinal a)); lia.
Qed.

Lemma compareFn_priority_tie order a b :
  Entry.priority a = Entry.priority b -> compareFn "priority" order a b = 0.
Proof.
  intros Hp. rewrite compareFn_priority. unfold ordinal. rewrite Hp.
  by rewrite Z.ltb_irrefl.
Qed.

(** A parameter whose field is "priority" is not empty, hence truthy. *)
Lemma sort_request_truthy sortParam order :
  sort_request sortParam = ("priority", order) ->
  truthy_string (Some sortParam) = true.
Proof. destruct sortParam; [discriminate|done]. Qed.

Lemma sort_stage_priority query sortParam order es :
  Query.entries_sort query = Some sortParam ->
  sort_request sortParam = ("priority", order) ->
  sort_stage query es = sort (compareFn "priority" order) es.
Proof.
  intros Hs Hr. unfold sort_stage. rewrite Hs.
  rewrite (sort_request_truthy _ _ Hr). simpl default. by rewrite Hr.
Qed.

(** ** The claims *)

(** C1 (the code departs from it). A stale version is answered with 409
    and the world is left as it was, but the response carries the current
    version only: at version 2, the submitted versions 1 and 3 get the very
    same response, in which neither of them occurs. *)
Theorem stale_version_response :
  put_report "t2" "r1" (only_version 1) (world_of [])
    = (Response.mk 409
         (Error "VERSION_CONFLICT" "Report version mismatch. Current version is 2"),
       world_of [])
  /\ put_report "t2" "r1" (only_version 3) (world_of [])
     = put_report "t2" "r1" (only_version 1) (world_of []).
Proof. split; reflexivity. Qed.

(** C2, as stated, fails: for a report with five live entries, two of them
    high, and stored metrics {0, 0}, the compact view returns the stored
    metrics, not the recomputed ones, and entryCount differs from the
    totalEntries it returns. *)
Lemma compact_metrics_not_live :
  exists c,
    fst (get_report "r1" query_compact (world_of five))
      = Response.mk 200 (CompactJson c)
    /\ Compact.metrics c = Metrics.mk 0 0
    /\ live_metrics five = Metrics.mk 5 2
    /\ Compact.metrics c <> live_metrics five
    /\ Compact.entryCount c <> Metrics.totalEntries (Compact.metrics c).
Proof. eexists. split; [reflexivity|]. repeat split; done. Qed.

(** C2, amended. For every report, the compact view returns the stored
    metrics field as it is, together with entryCount equal to the length of
    the live entries collection and highPriorityRate computed from the live
    entries (0 when there are none). *)
Theorem compact_view_metrics (w : World) (id : string) (query : Query.t) k report :
  find_report id w = Some (k, report) ->
  Query.view query = Some "compact" ->
  exists c,
    fst (get_report id query w) = Response.mk 200 (CompactJson c)
    /\ Compact.metrics c = Report.metrics report
    /\ Compact.entryCount c = Z.of_nat (length (elements w (Report.entries report)))
    /\ Compact.highPriorityRate c =
         rate_of (Metrics.highPriorityEntries
                    (live_metrics (elements w (Report.entries report))))
                 (Compact.entryCount c)
    /\ (elements w (Report.entries report) = [] -> Compact.highPriorityRate c = 0%Q).
Proof.
  intros Hfind Hview. rewrite (get_report_compact _ _ _ _ _ Hfind Hview).
  eexists. split; [reflexivity|]. cbn.
  repeat split. by intros ->.
Qed.

Lemma compact_view_metrics_witness :
  find_report "r1" (world_of five) = Some (0%nat, report_v2)
  /\ Query.view query_compact = Some "compact"
  /\ exists c,
       fst (get_report "r1" query_compact (world_of five))
         = Response.mk 200 (CompactJson c)
       /\ Compact.metrics c = Metrics.mk 0 0
       /\ Compact.entryCount c = 5.
Proof.
  split; [reflexivity|]. split; [reflexivity|].
  destruct (compact_view_metrics (world_of five) "r1" query_compact 0%nat report_v2
              eq_refl eq_refl) as (c & Hres & Hm & Hn & _).
  exists c. repeat split; assumption.
Defined.

Lemma sort_stage_length query es : length (sort_stage query es) = length es.
Proof.
  unfold sort_stage. destruct (truthy_string _); [|done].
  destruct (sort_request _). apply sort_length.
Qed.

Lemma valid_page_clamp query :
  valid_page query = Z.max (default 1 (Query.entries_page query)) 1.
Proof.
  unfold valid_page, js_or. destruct (Query.entries_page query) as [p|]; [|done].
  simpl. destruct (decide _); lia.
Qed.

Lemma valid_size_range query : 1 <= valid_size query <= 100.
Proof. unfold valid_size. lia. Qed.

(** C3, as stated, fails: the size input 0 is not clamped to 1 but replaced
    by the default 10. Twelve entries with size 0 come back as one page of
    ten out of two, where a size clamped to 1 gives one entry out of twelve
    pages. *)
Lemma size_zero_is_not_clamped :
  exists out pag,
    fst (get_report "r1" (query_entries None None None (Some 0))
           (world_of (numbered 12)))
      = Response.mk 200 (FullJson (full_of report_v2 (Some out) (Some pag)))
    /\ Pagination.size pag = 10
    /\ Pagination.size pag <> Z.min (Z.max 0 1) 100
    /\ length out = 10%nat
    /\ Pagination.totalPages pag = 2.
Proof. do 2 eexists. split; [vm_compute; reflexivity|]. repeat split; done. Qed.

(** C3, amended. For every entry collection and every page/size input, the
    pagination step takes page 1 for an absent or unparsable page and
    clamps the page to a minimum of 1; it takes size 10 for an absent or
    unparsable size and for size 0, and clamps any other size to [1,100];
    totalEntries is the length of the filtered collection, totalPages is
    ceil(totalEntries / size), the entries returned are the slice
    [(page-1)*size, (page-1)*size+size) of the filtered and sorted
    collection (empty when the offset is not below the length); for 25
    entries with page=2 and size=10 it returns entries[10:20] with
    totalPages=3 and totalEntries=25. *)
Theorem pagination_window (w : World) (id : string) (query : Query.t) k report :
  find_report id w = Some (k, report) ->
  Query.view query <> Some "compact" ->
  wants_entries query = true ->
  let filtered := filter_stage query (elements w (Report.entries report)) in
  let sorted := sort_stage query filtered in
  exists out pag,
    fst (get_report id query w)
      = Response.mk 200 (FullJson (full_of report (Some out) (Some pag)))
    /\ Pagination.page pag = Z.max (default 1 (Query.entries_page query)) 1
    /\ Pagination.size pag =
         match Query.entries_size query with
         | Some s => if decide (s = 0) then 10 else Z.min (Z.max s 1) 100
         | None => 10
         end
    /\ 1 <= Pagination.size pag <= 100
    /\ Pagination.totalEntries pag = Z.of_nat (length filtered)
    /\ Pagination.totalPages pag
         = ceil_div (Pagination.totalEntries pag) (Pagination.size pag)
    /\ (Pagination.totalPages pag - 1) * Pagination.size pag
         < Pagination.totalEntries pag
         <= Pagination.totalPages pag * Pagination.size pag
    /\ out = take (Z.to_nat (Pagination.size pag))
               (drop (Z.to_nat ((Pagination.page pag - 1) * Pagination.size pag))
                  sorted)
    /\ (Z.of_nat (length sorted) <= (Pagination.page pag - 1) * Pagination.size pag ->
        out = [])
    /\ (length sorted = 25%nat ->
        Query.entries_page query = Some 2 ->
        Query.entries_size query = Some 10 ->
        out = take 10 (drop 10 sorted)
        /\ Pagination.totalPages pag = 3
        /\ Pagination.totalEntries pag = 25).
Proof.
  intros Hfind Hview Hwant filtered sorted.
  destruct (get_report_entries _ _ _ _ _ Hfind Hview Hwant) as [fresh ->].
  unfold entry_query, page_stage. fold filtered. fold sorted.
  cbn [fst snd]. do 2 eexists. split; [reflexivity|].
  cbn [Pagination.page Pagination.size Pagination.totalEntries
       Pagination.totalPages].
  pose proof (valid_size_range query) as Hsize.
  assert (Hpage : 1 <= valid_page query) by (unfold valid_page; lia).
  assert (Hlen : length sorted = length filtered) by apply sort_stage_length.
  split; [apply valid_page_clamp|].
  split.
  { unfold valid_size, js_or. destruct (Query.entries_size query) as [s|]; [|done].
    by destruct (decide _). }
  split; [done|].
  split; [by rewrite Hlen|].
  split; [done|].
  split; [apply ceil_div_least; lia|].
  split; [apply slice_window; nia|].
  split; [intros Hout; by apply slice_beyond|].
  intros H25 Hp Hs.
  unfold valid_page, valid_size. rewrite Hp, Hs, H25. cbn.
  split; [|done].
  rewrite (slice_window 10 10) by lia. reflexivity.
Qed.

Lemma pagination_window_witness :
  find_report "r1" (world_of (numbered 25)) = Some (0%nat, report_v2)
  /\ Query.view (query_entries None None (Some 2) (Some 10)) <> Some "compact"
  /\ wants_entries (query_entries None None (Some 2) (Some 10)) = true
  /\ exists out pag,
       fst (get_report "r1" (query_entries None None (Some 2) (Some 10))
              (world_of (numbered 25)))
         = Response.mk 200 (FullJson (full_of report_v2 (Some out) (Some pag)))
       /\ out = take 10 (drop 10 (numbered 25))
       /\ Pagination.totalPages pag = 3
       /\ Pagination.totalEntries pag = 25.
Proof.
  split; [reflexivity|]. split; [discriminate|]. split; [reflexivity|].
  destruct (pagination_window (world_of (numbered 25)) "r1"
              (query_entries None None (Some 2) (Some 10)) 0%nat report_v2
              eq_refl ltac:(discriminate) eq_refl)
    as (out & pag & Hres & _ & _ & _ & _ & _ & _ & _ & _ & Hscenario).
  destruct (Hscenario eq_refl eq_refl eq_refl) as (Hout & Hpages & Htotal).
  exists out, pag. repeat split; assumption.
Defined.

(** C4. Sorting by the priority field compares the entries through the
    ordinal mapping low=1, medium=2, high=3, so that an ascending sort puts
    every low before every medium before every high; the order token "desc"
    exactly reverses the comparison; any other or absent token sorts
    ascending; and entries that compare equal, that is entries of the same
    priority, keep their relative order. *)
Theorem priority_sort (query : Query.t) (sortParam : string) (order : option string)
    (es : list Entry.t) :
  Query.entries_sort query = Some sortParam ->
  sort_request sortParam = ("priority", order) ->
  let c := compareFn "priority" order in
  let out := sort_stage query es in
  (forall w id k report,
     find_report id w = Some (k, report) ->
     Query.view query <> Some "compact" ->
     wants_entries query = true ->
     filter_stage query (elements w (Report.entries report)) = es ->
     exists pag,
       fst (get_report id query w)
         = Response.mk 200
             (FullJson (full_of report (Some (fst (page_stage query out))) (Some pag))))
  /\ (priorityMap low = 1 /\ priorityMap medium = 2 /\ priorityMap high = 3)
  /\ (forall a b,
        c a b = if decide (order = Some "desc")
                then Z.sgn (ordinal b - ordinal a)
                else Z.sgn (ordinal a - ordinal b))
  /\ (forall a b,
        compareFn "priority" (Some "desc") a b = - compareFn "priority" None a b)
  /\ (forall a b, c a b = 0 <-> Entry.priority a = Entry.priority b)
  /\ Permutation out es
  /\ (order <> Some "desc" -> StronglySorted (fun a b => ordinal a <= ordinal b) out)
  /\ (order = Some "desc" -> StronglySorted (fun a b => ordinal b <= ordinal a) out)
  /\ (forall p, List.filter (same_priority p) out = List.filter (same_priority p) es).
Proof.
  intros Hs Hr c out.
  assert (Hc : forall a b,
             c a b = if decide (order = Some "desc")
                     then Z.sgn (ordinal b - ordinal a)
                     else Z.sgn (ordinal a - ordinal b)).
  { intros a b. unfold c. destruct (decide _) as [->|Ho].
    - apply compareFn_priority_desc.
    - by apply compareFn_priority_asc. }
  assert (Hout : out = sort c es) by (by eapply sort_stage_priority).
  split.
  { intros w id k report Hfind Hview Hwant Hes.
    destruct (get_report_entries _ _ _ _ _ Hfind Hview Hwant) as [fresh ->].
    unfold entry_query. rewrite Hes. by eexists. }
  split; [done|]. split; [exact Hc|].
  split.
  { intros a b. rewrite compareFn_priority_desc, compareFn_priority_asc by done. lia. }
  split.
  { intros a b. rewrite Hc. split.
    - intros H0. apply priorityMap_inj. fold (ordinal a) (ordinal b).
      destruct (decide _); lia.
    - intros Hp. unfold ordinal. rewrite Hp. destruct (decide _); lia. }
  split; [rewrite Hout; apply sort_perm|].
  split.
  { intros Ho. rewrite Hout. apply sort_sorted.
    - intros x y z; lia.
    - intros x y. rewrite Hc. destruct (decide _); [done|lia].
    - intros x y. rewrite Hc. destruct (decide _); [done|lia]. }
  split.
  { intros Ho. rewrite Hout. apply sort_sorted.
    - intros x y z; lia.
    - intros x y. rewrite Hc. destruct (decide _); [lia|done].
    - intros x y. rewrite Hc. destruct (decide _); [lia|done]. }
  intros p. rewrite Hout. apply filter_sort.
  intros x y Hx Hy. unfold same_priority in *.
  apply bool_decide_eq_true in Hx, Hy.
  unfold c. rewrite compareFn_priority_tie by congruence. lia.
Qed.

Lemma priority_sort_witness :
  Query.entries_sort (query_entries None (Some "priority_desc") None None)
    = Some "priority_desc"
  /\ sort_request "priority_desc" = ("priority", Some "desc")
  /\ sort_stage (query_entries None (Some "priority_desc") None None) five
       = [entry "b" high; entry "d" high; entry "c" medium; entry "a" low; entry "e" low]
  /\ StronglySorted (fun a b => ordinal b <= ordinal a)
       (sort_stage (query_entries None (Some "priority_desc") None None) five).
Proof.
  split; [reflexivity|]. split; [reflexivity|]. split; [reflexivity|].
  destruct (priority_sort (query_entries None (Some "priority_desc") None None)
              "priority_desc" (Some "desc") five eq_refl eq_refl)
    as (_ & _ & _ & _ & _ & _ & _ & Hdesc & _).
  exact (Hdesc eq_refl).
Defined.

Lemma changes_nothing_fields updates report :
  changes_nothing updates report -> changed_fields updates report = [].
Proof.
  intros (Ht & Hs & Hp). unfold changed_fields.
  destruct (Updates.title updates) as [t|]; [rewrite (Ht t eq_refl)|];
    destruct (Updates.status updates) as [s|]; try rewrite (Hs s eq_refl);
    destruct (Updates.priority updates) as [p|]; try rewrite (Hp p eq_refl);
    repeat (destruct (decide _)); done.
Qed.

(** A PUT that is answered with 200 passed validation and the version
    check. *)
Lemma put_report_ok (w : World) now id (body : Updates.t) k report :
  find_report id w = Some (k, report) ->
  Response.status (fst (put_report now id body w)) = 200 ->
  updateReportSchema body = Some body /\ conflicts body report = false.
Proof.
  intros Hfind Hok.
  destruct (updateReportSchema body) as [updates|] eqn:Hv.
  - apply updateReportSchema_id in Hv as Heq. subst updates.
    split; [done|]. destruct (conflicts body report) eqn:Hc; [|done].
    by rewrite (put_report_conflict _ _ _ _ _ _ Hv Hfind Hc) in Hok.
  - by rewrite (put_report_invalid _ _ _ _ Hv) in Hok.
Qed.

(** C5. A successful update whose patch changes no field still increments
    the version by exactly 1, sets updatedAt, and appends an audit line
    with the "none" marker. *)
Theorem noop_update_bumps_version (w : World) now id (body : Updates.t) k report :
  find_report id w = Some (k, report) ->
  Response.status (fst (put_report now id body w)) = 200 ->
  changes_nothing body report ->
  exists report',
    reports (snd (put_report now id body w)) !! k = Some report'
    /\ Report.version report' = Report.version report + 1
    /\ Report.updatedAt report' = now
    /\ Report.auditLogs report'
       = Some (default [] (Report.auditLogs report)
               ++ ["Updated fields: none at " +:+ now])
    /\ Report.title report' = Report.title report
    /\ Report.status report' = Report.status report
    /\ Report.priority report' = Report.priority report.
Proof.
  intros Hfind Hok Hnone.
  destruct (put_report_ok _ _ _ _ _ _ Hfind Hok) as [Hv Hc].
  rewrite (put_report_applied _ _ _ _ _ _ Hv Hfind Hc). cbn [snd reports].
  exists (updated now body report).
  split.
  { apply list_lookup_insert_eq. eapply lookup_lt_Some, find_report_slot, Hfind. }
  unfold updated. rewrite (changes_nothing_fields _ _ Hnone). cbn.
  destruct Hnone as (Ht & Hs & Hp).
  repeat split.
  - destruct (Updates.title body) as [t|]; [by rewrite (Ht t)|done].
  - destruct (Updates.status body) as [s|]; [by rewrite (Hs s)|done].
  - destruct (Updates.priority body) as [p|]; [by rewrite (Hp p)|done].
Qed.

Lemma noop_update_bumps_version_witness :
  find_report "r1" (world_of []) = Some (0%nat, report_v2)
  /\ Response.status
       (fst (put_report "t2" "r1" (Updates.mk (Some "Q1 final") None None (Some 2))
               (world_of []))) = 200
  /\ changes_nothing (Updates.mk (Some "Q1 final") None None (Some 2)) report_v2
  /\ exists report',
       reports (snd (put_report "t2" "r1"
                       (Updates.mk (Some "Q1 final") None None (Some 2))
                       (world_of []))) !! 0%nat = Some report'
       /\ Report.version report' = 3
       /\ Report.auditLogs report'
          = Some ["Updated fields: title at t1"; "Updated fields: none at t2"].
Proof.
  assert (Hnone : changes_nothing (Updates.mk (Some "Q1 final") None None (Some 2))
                    report_v2).
  { repeat split; intros v Hv; try discriminate Hv.
    injection Hv as <-. reflexivity. }
  split; [reflexivity|]. split; [reflexivity|]. split; [exact Hnone|].
  destruct (noop_update_bumps_version (world_of []) "t2" "r1"
              (Updates.mk (Some "Q1 final") None None (Some 2)) 0%nat report_v2
              eq_refl eq_refl Hnone)
    as (report' & Hk & Hver & _ & Hlog & _).
  exists report'. repeat split; assumption.
Defined.

(** A falsy version, absent or 0, never conflicts. *)
Lemma falsy_version_passes (updates : Updates.t) (report : Report.t) :
  truthy_number (Updates.version updates) = false ->
  conflicts updates report = false.
Proof. intros Hf. unfold conflicts. by rewrite Hf. Qed.

Lemma put_report_slot (w : World) now id (updates : Updates.t) k report :
  updateReportSchema updates = Some updates ->
  find_report id w = Some (k, report) ->
  conflicts updates report = false ->
  reports (snd (put_report now id updates w)) !! k
    = Some (updated now updates report).
Proof.
  intros Hv Hfind Hc.
  rewrite (put_report_applied _ _ _ _ _ _ Hv Hfind Hc). cbn [snd reports].
  apply list_lookup_insert_eq. eapply lookup_lt_Some, find_report_slot, Hfind.
Qed.

(** C6. When the patch has no version, the version check is skipped and the
    update is applied, whatever the current version of the report is. *)
Theorem absent_version_forces_update (w : World) now id (updates : Updates.t) k report :
  updateReportSchema updates = Some updates ->
  find_report id w = Some (k, report) ->
  Updates.version updates = None ->
  conflicts updates report = false
  /\ fst (put_report now id updates w)
     = Response.mk 200
         (ReportJson (updated now updates report) (elements w (Report.entries report)))
  /\ reports (snd (put_report now id updates w)) !! k
     = Some (updated now updates report)
  /\ Report.version (updated now updates report) = Report.version report + 1
  /\ Report.title (updated now updates report)
     = default (Report.title report) (Updates.title updates)
  /\ Report.status (updated now updates report)
     = default (Report.status report) (Updates.status updates)
  /\ Report.priority (updated now updates report)
     = default (Report.priority report) (Updates.priority updates).
Proof.
  intros Hv Hfind Hnone.
  assert (Hc : conflicts updates report = false).
  { apply falsy_version_passes. by rewrite Hnone. }
  split; [done|].
  split; [by rewrite (put_report_applied _ _ _ _ _ _ Hv Hfind Hc)|].
  split; [by apply put_report_slot|].
  repeat split.
Qed.

Lemma absent_version_forces_update_witness :
  updateReportSchema (Updates.mk (Some "Q1 forced") None (Some high) None)
    = Some (Updates.mk (Some "Q1 forced") None (Some high) None)
  /\ find_report "r1" (world_of []) = Some (0%nat, report_v2)
  /\ Response.status
       (fst (put_report "t2" "r1" (Updates.mk (Some "Q1 forced") None (Some high) None)
               (world_of []))) = 200
  /\ Report.version
       (updated "t2" (Updates.mk (Some "Q1 forced") None (Some high) None) report_v2)
     = 3.
Proof.
  split; [reflexivity|]. split; [reflexivity|].
  destruct (absent_version_forces_update (world_of []) "t2" "r1"
              (Updates.mk (Some "Q1 forced") None (Some high) None) 0%nat report_v2
              eq_refl eq_refl eq_refl)
    as (_ & Hres & _ & Hver & _).
  split; [by rewrite Hres|exact Hver].
Defined.

(** C10. A patch with version 0 skips the version check, since 0 is falsy:
    the update is applied although 0 differs from the current version. *)
Theorem version_zero_skips_check (w : World) now id (updates : Updates.t) k report :
  updateReportSchema updates = Some updates ->
  find_report id w = Some (k, report) ->
  Updates.version updates = Some 0 ->
  conflicts updates report = false
  /\ fst (put_report now id updates w)
     = Response.mk 200
         (ReportJson (updated now updates report) (elements w (Report.entries report)))
  /\ reports (snd (put_report now id updates w)) !! k
     = Some (updated now updates report)
  /\ Report.version (updated now updates report) = Report.version report + 1.
Proof.
  intros Hv Hfind Hzero.
  assert (Hc : conflicts updates report = false).
  { apply falsy_version_passes. by rewrite Hzero. }
  split; [done|].
  split; [by rewrite (put_report_applied _ _ _ _ _ _ Hv Hfind Hc)|].
  split; [by apply put_report_slot|done].
Qed.

Lemma version_zero_skips_check_witness :
  updateReportSchema (only_version 0) = Some (only_version 0)
  /\ find_report "r1" (world_of []) = Some (0%nat, report_v2)
  /\ Updates.version (only_version 0) <> Some (Report.version report_v2)
  /\ Response.status (fst (put_report "t2" "r1" (only_version 0) (world_of []))) = 200
  /\ Report.version (updated "t2" (only_version 0) report_v2) = 3.
Proof.
  split; [reflexivity|]. split; [reflexivity|]. split; [discriminate|].
  destruct (version_zero_skips_check (world_of []) "t2" "r1" (only_version 0)
              0%nat report_v2 eq_refl eq_refl eq_refl)
    as (_ & Hres & _ & Hver).
  split; [by rewrite Hres|exact Hver].
Defined.

Lemma targets_find k id w :
  targets k id w = true -> exists report, find_report id w = Some (k, report).
Proof.
  unfold targets. intros H%bool_decide_eq_true.
  destruct (find_report id w) as [[k0 r0]|]; simplify_eq/=. by exists r0.
Qed.

(** One successful update: the version grows by 1, updatedAt is the time of
    the request. *)
Lemma update_step (w : World) k r now id body :
  reports w !! k = Some r ->
  is_update k (PutReport now id body) w = true ->
  reports (snd (put_report now id body w)) !! k = Some (updated now body r).
Proof.
  intros Hk [Ht Hok%bool_decide_eq_true]%andb_prop.
  destruct (targets_find _ _ _ Ht) as [r0 Hfind].
  pose proof (find_report_slot _ _ _ _ Hfind) as Hk0.
  assert (r0 = r) as -> by congruence.
  destruct (put_report_ok _ _ _ _ _ _ Hfind Hok) as [Hv Hc].
  by apply put_report_slot.
Qed.

(** One successful attachment append: only the attachments and the audit
    log grow. *)
Lemma append_step (w : World) k r now id file :
  reports w !! k = Some r ->
  is_append k (PostAttachment now id file) w = true ->
  exists f,
    file = Some f
    /\ reports (snd (post_attachment now id file w)) !! k = Some (attached now f r).
Proof.
  intros Hk [Ht Hok%bool_decide_eq_true]%andb_prop.
  destruct (targets_find _ _ _ Ht) as [r0 Hfind].
  pose proof (find_report_slot _ _ _ _ Hfind) as Hk0.
  assert (r0 = r) as -> by congruence.
  simpl handle in Hok. destruct file as [f|].
  - exists f. split; [done|].
    rewrite (post_attachment_applied _ _ _ _ _ _ Hfind). cbn [snd reports].
    apply list_lookup_insert_eq. by eapply lookup_lt_Some.
  - by rewrite (post_attachment_no_file _ _ _ _ _ Hfind) in Hok.
Qed.

Lemma post_report_slot (w : World) uuid now1 now2 body :
  Response.status (fst (post_report uuid now1 now2 body w)) = 201 ->
  exists title status priority,
    reports (snd (post_report uuid now1 now2 body w)) !! length (reports w)
      = Some (created uuid now1 now2 title status priority (length (arrays w))).
Proof.
  intros Hok. destruct (createReportSchema body) as [[[t s] p]|] eqn:Hv.
  - exists t, s, p. rewrite (post_report_created _ _ _ _ _ _ _ _ Hv).
    cbn [snd reports]. apply list_lookup_middle. done.
  - by rewrite (post_report_invalid _ _ _ _ _ Hv) in Hok.
Qed.

(** C7, as stated, fails: a successful attachment append on a report just
    created leaves its version at 1 and its updatedAt as it was, although
    one successful mutation has taken place since creation. *)
Lemma attachment_append_keeps_version :
  exists r r',
    let w1 := snd (post_report "r1" "t0" "t0" (CreateBody.mk (Some "Q1") None None)
                     (mkWorld [] [])) in
    let req := PostAttachment "t1" "r1" (Some pdf) in
    reports w1 !! 0%nat = Some r
    /\ Response.status (fst (handle req w1)) = 201
    /\ count_along (is_append 0) [req] w1 = 1%nat
    /\ reports (snd (handle req w1)) !! 0%nat = Some r'
    /\ Report.attachments r' = Some [attachment_of pdf]
    /\ Report.version r' = 1
    /\ Report.version r' <> Report.version r + 1
    /\ Report.updatedAt r' = Report.updatedAt r.
Proof. do 2 eexists. cbn zeta. repeat split; try reflexivity. done. Qed.

(** C7, amended. A report is created at version 1. Every successful update
    sets updatedAt to the time of the request and increments version by
    exactly 1; a successful attachment append changes neither of the two
    (it appends the attachment and an audit line); so version equals 1 plus
    the number of successful updates since creation. *)
Theorem version_counts_updates (w : World) uuid now1 now2 body (reqs : list Request) :
  Response.status (fst (post_report uuid now1 now2 body w)) = 201 ->
  let w1 := snd (post_report uuid now1 now2 body w) in
  let k := length (reports w) in
  (exists r0, reports w1 !! k = Some r0 /\ Report.version r0 = 1)
  /\ (exists r',
        reports (snd (serve reqs w1)) !! k = Some r'
        /\ Report.version r' = 1 + Z.of_nat (count_along (is_update k) reqs w1))
  /\ (forall w' j r now id patch,
        reports w' !! j = Some r ->
        is_update j (PutReport now id patch) w' = true ->
        exists r',
          reports (snd (handle (PutReport now id patch) w')) !! j = Some r'
          /\ Report.version r' = Report.version r + 1
          /\ Report.updatedAt r' = now)
  /\ (forall w' j r now id file,
        reports w' !! j = Some r ->
        is_append j (PostAttachment now id file) w' = true ->
        exists r',
          reports (snd (handle (PostAttachment now id file) w')) !! j = Some r'
          /\ Report.version r' = Report.version r
          /\ Report.updatedAt r' = Report.updatedAt r
          /\ length (default [] (Report.attachments r'))
             = S (length (default [] (Report.attachments r)))).
Proof.
  intros Hok w1 k.
  destruct (post_report_slot _ _ _ _ _ Hok) as (t & s & p & Hk).
  fold w1 k in Hk.
  split; [by eexists|].
  split.
  { destruct (serve_slot reqs w1 k _ Hk) as (r' & Hk' & Hv'). by exists r'. }
  split.
  - intros w' j r now id patch Hj Hup.
    exists (updated now patch r). split; [by apply update_step|done].
  - intros w' j r now id file Hj Hap.
    destruct (append_step _ _ _ _ _ _ Hj Hap) as (f & -> & Hj').
    exists (attached now f r). split; [done|]. cbn.
    repeat split. rewrite length_app. simpl. lia.
Qed.

Lemma version_counts_updates_witness :
  let create := CreateBody.mk (Some "Q1") None None in
  let reqs :=
    [PutReport "t1" "r1" (Updates.mk (Some "Q1 final") None None (Some 1));
     PostAttachment "t2" "r1" (Some pdf);
     PutReport "t3" "r1" (only_version 1);
     GetReport "r1" query_compact;
     PutReport "t4" "r1" (Updates.mk None (Some submitted) None None)] in
  let w1 := snd (post_report "r1" "t0" "t0" create (mkWorld [] [])) in
  Response.status (fst (post_report "r1" "t0" "t0" create (mkWorld [] []))) = 201
  /\ map Response.status (fst (serve reqs w1)) = [200; 201; 409; 200; 200]
  /\ exists r',
       reports (snd (serve reqs w1)) !! 0%nat = Some r'
       /\ Report.version r' = 1 + Z.of_nat (count_along (is_update 0) reqs w1)
       /\ count_along (is_update 0) reqs w1 = 2%nat.
Proof.
  intros create reqs w1.
  split; [reflexivity|]. split; [reflexivity|].
  destruct (version_counts_updates (mkWorld [] []) "r1" "t0" "t0" create reqs eq_refl)
    as (_ & (r' & Hk & Hv) & _).
  exists r'. split; [exact Hk|]. split; [exact Hv|reflexivity].
Defined.

(** C8, as stated, fails: with 101 entries, size=100, page=1, no filter and
    no sort, the last entry is not returned. *)
Lemma page_of_100_truncates :
  exists out pag,
    fst (get_report "r1" (query_entries None None (Some 1) (Some 100))
           (world_of (numbered 101)))
      = Response.mk 200 (FullJson (full_of report_v2 (Some out) (Some pag)))
    /\ length out = 100%nat
    /\ out = take 100 (numbered 101)
    /\ out <> numbered 101.
Proof.
  do 2 eexists. split; [vm_compute; reflexivity|].
  split; [reflexivity|]. split; [reflexivity|].
  intros Heq. apply (f_equal length) in Heq. vm_compute in Heq. discriminate.
Qed.

(** C8, amended. With size=100, page=1, no filter and no sort, the entries
    returned are the first 100 of the collection in their original order:
    the full collection when it has at most 100 entries. *)
Theorem unfiltered_first_page (w : World) (id : string) (query : Query.t) k report :
  find_report id w = Some (k, report) ->
  Query.view query <> Some "compact" ->
  wants_entries query = true ->
  Query.entries_size query = Some 100 ->
  Query.entries_page query = Some 1 ->
  Query.entries_highPriorityOnly query <> Some "true" ->
  truthy_string (Query.entries_sort query) = false ->
  let es := elements w (Report.entries report) in
  exists pag,
    fst (get_report id query w)
      = Response.mk 200 (FullJson (full_of report (Some (take 100 es)) (Some pag)))
    /\ ((length es <= 100)%nat -> take 100 es = es).
Proof.
  intros Hfind Hview Hwant Hsize Hpage Hhp Hsort es.
  destruct (get_report_entries _ _ _ _ _ Hfind Hview Hwant) as [fresh ->].
  unfold entry_query, filter_stage, sort_stage, page_stage, valid_page, valid_size.
  rewrite Hsize, Hpage, Hsort, bool_decide_false by done.
  cbn [fst snd js_or]. fold es.
  eexists. split.
  - do 4 f_equal. change ((Z.max 1 1 - 1) * Z.min (Z.max 100 1) 100) with 0.
    change (0 + Z.min (Z.max 100 1) 100) with (0 + 100).
    by rewrite (slice_window 0 100) by lia.
  - intros Hle. by apply take_ge.
Qed.

Lemma unfiltered_first_page_witness :
  find_report "r1" (world_of five) = Some (0%nat, report_v2)
  /\ wants_entries (query_entries None None (Some 1) (Some 100)) = true
  /\ exists pag,
       fst (get_report "r1" (query_entries None None (Some 1) (Some 100))
              (world_of five))
         = Response.mk 200 (FullJson (full_of report_v2 (Some five) (Some pag))).
Proof.
  split; [reflexivity|]. split; [reflexivity|].
  destruct (unfiltered_first_page (world_of five) "r1"
              (query_entries None None (Some 1) (Some 100)) 0%nat report_v2
              eq_refl ltac:(discriminate) eq_refl eq_refl eq_refl
              ltac:(discriminate) eq_refl)
    as (pag & Hres & _).
  exists pag. exact Hres.
Defined.

(** C9. Whatever the view, include, filter, sort and pagination parameters,
    GET /reports/:id leaves the reports and every array that existed before
    the request, the entries of the stored reports among them, as they
    were: the world only gains the arrays the handler built for itself. *)
Theorem get_report_reads_only (w : World) (id : string) (query : Query.t) :
  let w' := snd (get_report id query w) in
  reports w' = reports w
  /\ (exists fresh, arrays w' = arrays w ++ fresh)
  /\ (forall l es, arrays w !! l = Some es -> arrays w' !! l = Some es)
  /\ (forall k r,
        reports w !! k = Some r ->
        (Report.entries r < length (arrays w))%nat ->
        reports w' !! k = Some r
        /\ elements w' (Report.entries r) = elements w (Report.entries r)).
Proof.
  intros w'. destruct (get_report_frame w id query) as [fresh Hw']. fold w' in Hw'.
  rewrite Hw'. cbn [reports arrays].
  assert (Hkeep : forall l es,
             arrays w !! l = Some es -> (arrays w ++ fresh) !! l = Some es).
  { intros l es Hl. by apply lookup_app_l_Some. }
  split; [done|]. split; [by exists fresh|]. split; [exact Hkeep|].
  intros k r Hk Hvalid. split; [done|].
  unfold elements. cbn [arrays].
  destruct (lookup_lt_is_Some_2 _ _ Hvalid) as [es Hes].
  by rewrite (Hkeep _ _ Hes), Hes.
Qed.

Lemma get_report_reads_only_witness :
  let query := query_entries (Some "true") (Some "priority_desc") (Some 1) (Some 1) in
  let w' := snd (get_report "r1" query (world_of five)) in
  arrays (world_of five) !! 0%nat = Some five
  /\ reports (world_of five) !! 0%nat = Some report_v2
  /\ Full.entries (full_of report_v2 (Some (fst (entry_query query five))) None)
     = Some [entry "b" high]
  /\ reports w' = [report_v2]
  /\ arrays w' !! 0%nat = Some five
  /\ elements w' (Report.entries report_v2) = five.
Proof.
  intros query w'.
  split; [reflexivity|]. split; [reflexivity|]. split; [reflexivity|].
  destruct (get_report_reads_only (world_of five) "r1" query)
    as (Hreports & _ & Harrays & Hentries).
  split; [exact Hreports|].
  split; [exact (Harrays 0%nat five eq_refl)|].
  destruct (Hentries 0%nat report_v2 eq_refl ltac:(simpl; lia)) as [_ Hsame].
  exact Hsame.
Defined.

(** ** Further facts: how a request changes the store *)

Lemma find_report_replace_same id rs A k r r' :
  find_report id (mkWorld rs A) = Some (k, r) ->
  Report.id r' = Report.id r ->
  find_report id (mkWorld (<[k := r']> rs) A) = Some (k, r').
Proof.
  unfold find_report. cbn [reports]. intros (Hk & Hid & Hleast)%list_find_Some Hsame.
  apply list_find_Some. split_and!.
  - apply list_lookup_insert_eq. by eapply lookup_lt_Some.
  - congruence.
  - intros j y Hj Hlt. rewrite list_lookup_insert_ne in Hj by lia. eauto.
Qed.

Lemma find_report_replace_other id rs A k r r' j x :
  find_report id (mkWorld rs A) = Some (j, x) ->
  rs !! k = Some r ->
  Report.id r' = Report.id r ->
  j <> k ->
  find_report id (mkWorld (<[k := r']> rs) A) = Some (j, x).
Proof.
  unfold find_report. cbn [reports].
  intros (Hj & Hid & Hleast)%list_find_Some Hk Hsame Hne.
  apply list_find_Some. split_and!; [by rewrite list_lookup_insert_ne|done|].
  intros i y Hi Hlt. destruct (decide (i = k)) as [->|Hik].
  - rewrite list_lookup_insert_eq in Hi by (by eapply lookup_lt_Some).
    injection Hi as <-. rewrite Hsame. by eapply Hleast.
  - rewrite list_lookup_insert_ne in Hi by done. eauto.
Qed.

Lemma step_report_id k req w r : Report.id (step_report k req w r) = Report.id r.
Proof.
  destruct req as [| ? ? [f|] | |]; simpl; try done.
  - by destruct (_ && _).
  - by destruct (_ && _).
Qed.

Lemma targets_found k id w r : find_report id w = Some (k, r) -> targets k id w = true.
Proof. intros H. unfold targets. rewrite H. by apply bool_decide_eq_true. Qed.

Lemma targets_other k id w : 
  (forall r, find_report id w <> Some (k, r)) -> targets k id w = false.
Proof.
  intros H. unfold targets. apply bool_decide_eq_false.
  destruct (find_report id w) as [[j x]|] eqn:Hf; simpl; [|done].
  intros [= ->]. by eapply H.
Qed.

(** A request that is not addressed to slot [k] leaves its report alone. *)
Lemma step_report_other k req w r :
  (forall r0, req_target req w <> Some (k, r0)) -> step_report k req w r = r.
Proof.
  intros H. destruct req as [| now id [f|] | | now id body]; simpl in *; try done.
  - by rewrite (targets_other _ _ _ H).
  - by rewrite (targets_other _ _ _ H).
Qed.

(** The store after one request: the addressed report has made its step,
    the created report is at the end, all others are as before. *)
Lemma handle_reports (req : Request) (w : World) :
  reports (snd (handle req w)) =
    match req_target req w with
    | Some (k, r) => <[k := step_report k req w r]> (reports w)
    | None => reports w
    end ++ req_created req w.
Proof.
  destruct req as [uuid now1 now2 body|now id file|id query|now id body];
    cbn [req_target req_created handle].
  - destruct (createReportSchema body) as [[[t s] p]|] eqn:Hv.
    + by rewrite (post_report_created _ _ _ _ _ _ _ _ Hv).
    + rewrite (post_report_invalid _ _ _ _ _ Hv). simpl. by rewrite app_nil_r.
  - rewrite app_nil_r.
    destruct (find_report id w) as [[k r]|] eqn:Hfind.
    + pose proof (find_report_slot _ _ _ _ Hfind) as Hk.
      destruct file as [f|].
      * rewrite (post_attachment_applied _ _ _ _ _ _ Hfind). cbn [snd reports].
        cbn [step_report is_append handle].
        rewrite (targets_found _ _ _ _ Hfind).
        by rewrite (post_attachment_applied _ _ _ _ _ _ Hfind).
      * rewrite (post_attachment_no_file _ _ _ _ _ Hfind). simpl.
        by rewrite list_insert_id.
    + by rewrite (post_attachment_missing _ _ _ _ Hfind).
  - rewrite app_nil_r. by destruct (get_report_frame w id query) as [fresh ->].
  - rewrite app_nil_r.
    destruct (find_report id w) as [[k r]|] eqn:Hfind.
    + pose proof (find_report_slot _ _ _ _ Hfind) as Hk.
      cbn [step_report is_update handle]. rewrite (targets_found _ _ _ _ Hfind).
      destruct (updateReportSchema body) as [updates|] eqn:Hv.
      * apply updateReportSchema_id in Hv as Heq. subst updates.
        destruct (conflicts body r) eqn:Hc.
        -- rewrite (put_report_conflict _ _ _ _ _ _ Hv Hfind Hc). simpl.
           by rewrite list_insert_id.
        -- by rewrite (put_report_applied _ _ _ _ _ _ Hv Hfind Hc).
      * rewrite (put_report_invalid _ _ _ _ Hv). simpl. by rewrite list_insert_id.
    + destruct (updateReportSchema body) as [updates|] eqn:Hv.
      * apply updateReportSchema_id in Hv as Heq. subst updates.
        by rewrite (put_report_missing _ _ _ _ Hv Hfind).
      * by rewrite (put_report_invalid _ _ _ _ Hv).
Qed.

(** Requests only add arrays; only POST /reports adds one that stays in
    use, and it is empty. *)
Lemma handle_arrays (req : Request) (w : World) :
  exists fresh, arrays (snd (handle req w)) = arrays w ++ fresh.
Proof.
  destruct req as [uuid now1 now2 body|now id file|id query|now id body];
    cbn [handle].
  - destruct (createReportSchema body) as [[[t s] p]|] eqn:Hv.
    + rewrite (post_report_created _ _ _ _ _ _ _ _ Hv). by eexists.
    + rewrite (post_report_invalid _ _ _ _ _ Hv). exists []. by rewrite app_nil_r.
  - exists []. rewrite app_nil_r.
    destruct (find_report id w) as [[k r]|] eqn:Hfind.
    + destruct file as [f|].
      * by rewrite (post_attachment_applied _ _ _ _ _ _ Hfind).
      * by rewrite (post_attachment_no_file _ _ _ _ _ Hfind).
    + by rewrite (post_attachment_missing _ _ _ _ Hfind).
  - destruct (get_report_frame w id query) as [fresh ->]. by exists fresh.
  - exists []. rewrite app_nil_r.
    destruct (updateReportSchema body) as [updates|] eqn:Hv.
    + apply updateReportSchema_id in Hv as Heq. subst updates.
      destruct (find_report id w) as [[k r]|] eqn:Hfind.
      * destruct (conflicts body r) eqn:Hc.
        -- by rewrite (put_report_conflict _ _ _ _ _ _ Hv Hfind Hc).
        -- by rewrite (put_report_applied _ _ _ _ _ _ Hv Hfind Hc).
      * by rewrite (put_report_missing _ _ _ _ Hv Hfind).
    + by rewrite (put_report_invalid _ _ _ _ Hv).
Qed.

(** The report in slot [k] after one request. *)
Lemma handle_slot_exact (req : Request) (w : World) k r :
  reports w !! k = Some r ->
  reports (snd (handle req w)) !! k = Some (step_report k req w r).
Proof.
  intros Hk. rewrite handle_reports. apply lookup_app_l_Some.
  destruct (req_target req w) as [[k0 r0]|] eqn:Ht.
  - destruct (decide (k = k0)) as [->|Hne].
    + assert (reports w !! k0 = Some r0) as Hk0.
      { destruct req; simpl in Ht; try done; by eapply find_report_slot. }
      assert (r0 = r) as -> by congruence.
      apply list_lookup_insert_eq. by eapply lookup_lt_Some.
    + rewrite list_lookup_insert_ne by done.
      rewrite step_report_other; [done|]. intros r1. congruence.
  - rewrite step_report_other; [done|]. intros r1. congruence.
Qed.

(** An id keeps resolving to the same slot. *)
Lemma handle_find (req : Request) (w : World) id k r :
  find_report id w = Some (k, r) ->
  find_report id (snd (handle req w)) = Some (k, step_report k req w r).
Proof.
  intros Hfind. unfold find_report at 1. rewrite handle_reports.
  apply list_find_app_l.
  pose proof (find_report_slot _ _ _ _ Hfind) as Hk.
  destruct w as [rs A].
  destruct (req_target req (mkWorld rs A)) as [[k0 r0]|] eqn:Ht.
  - assert (rs !! k0 = Some r0) as Hk0.
    { destruct req; simpl in Ht; try done;
        by apply (find_report_slot _ _ _ _ Ht). }
    destruct (decide (k = k0)) as [->|Hne].
    + assert (r0 = r) as -> by (cbn in Hk; congruence).
      apply (find_report_replace_same id rs A k0 r); [done|].
      apply step_report_id.
    + rewrite (step_report_other k) by (intros r1; congruence).
      apply (find_report_replace_other id rs A k0 r0); [done..| |done].
      apply step_report_id.
  - rewrite (step_report_other k) by (intros r1; congruence). exact Hfind.
Qed.

Lemma ceil_div_zero (b : Z) : 0 < b -> ceil_div 0 b = 0.
Proof. intros Hb. rewrite ceil_div_floor by done. by rewrite Z.opp_0, Z.div_0_l by lia. Qed.

Lemma sort_stage_nil query : sort_stage query [] = [].
Proof.
  unfold sort_stage. destruct (truthy_string _); [|done]. by destruct (sort_request _).
Qed.

Lemma filter_stage_nil query : filter_stage query [] = [].
Proof. unfold filter_stage. by destruct (bool_decide _). Qed.

Lemma entry_query_nil query :
  entry_query query [] =
    ([], Pagination.mk (valid_page query) (valid_size query) 0 0).
Proof.
  unfold entry_query. rewrite filter_stage_nil, sort_stage_nil.
  unfold page_stage. simpl length.
  rewrite ceil_div_zero by (pose proof (valid_size_range query); lia).
  f_equal. apply slice_beyond. simpl.
  unfold valid_page, valid_size. nia.
Qed.

Lemma get_report_entries_fst (w : World) id query k report :
  find_report id w = Some (k, report) ->
  Query.view query <> Some "compact" ->
  wants_entries query = true ->
  fst (get_report id query w) =
    (let p := entry_query query (elements w (Report.entries report)) in
     Response.mk 200 (FullJson (full_of report (Some (fst p)) (Some (snd p))))).
Proof.
  intros Hfind Hview Hwant.
  by destruct (get_report_entries _ _ _ _ _ Hfind Hview Hwant) as [fresh ->].
Qed.

(** ** Further properties: creating and reading back *)

(** X1. A report created under an id no stored report has is found under
    that id from then on, and GET returns it as created: version 1, metrics
    {0, 0}, no entries (an empty page out of zero pages when the entries
    are asked for), whatever the view. *)
Theorem create_then_get (w : World) uuid now1 now2 body title status priority
    (query : Query.t) :
  createReportSchema body = Some (title, status, priority) ->
  find_report uuid w = None ->
  let w1 := snd (post_report uuid now1 now2 body w) in
  find_report uuid w1
    = Some (length (reports w),
            created uuid now1 now2 title status priority (length (arrays w)))
  /\ fst (get_report uuid query w1) =
       if decide (Query.view query = Some "compact") then
         Response.mk 200 (CompactJson
           (Compact.mk uuid title status priority (Metrics.mk 0 0) 0 0%Q))
       else if wants_entries query then
         Response.mk 200 (FullJson
           (Full.mk uuid title status priority now1 now2 1 (Metrics.mk 0 0)
              (Some [])
              (Some (Pagination.mk (valid_page query) (valid_size query) 0 0))))
       else
         Response.mk 200 (FullJson
           (Full.mk uuid title status priority now1 now2 1 (Metrics.mk 0 0)
              None None)).
Proof.
  intros Hv Hfresh w1.
  assert (Hfind : find_report uuid w1
            = Some (length (reports w),
                    created uuid now1 now2 title status priority (length (arrays w)))).
  { unfold w1. rewrite (post_report_created _ _ _ _ _ _ _ _ Hv).
    unfold find_report. cbn [snd reports].
    apply list_find_app_Some. right. split; [done|]. split; [exact Hfresh|].
    rewrite Nat.sub_diag. simpl. by rewrite decide_True. }
  split; [exact Hfind|].
  assert (Hes : elements w1 (length (arrays w)) = []).
  { unfold w1. rewrite (post_report_created _ _ _ _ _ _ _ _ Hv).
    cbn [snd]. apply elements_new. }
  destruct (decide (Query.view query = Some "compact")) as [Hview|Hview].
  - rewrite (get_report_compact _ _ _ _ _ Hfind Hview). cbn [fst Report.entries created].
    by rewrite Hes.
  - destruct (wants_entries query) eqn:Hwant.
    + rewrite (get_report_entries_fst _ _ _ _ _ Hfind Hview Hwant).
      cbn [Report.entries created]. rewrite Hes, entry_query_nil. reflexivity.
    + by rewrite (get_report_plain _ _ _ _ _ Hfind Hview Hwant).
Qed.

Lemma create_then_get_witness :
  let body := CreateBody.mk (Some "Q2") None (Some high) in
  let query := query_entries None (Some "createdAt_desc") (Some 3) (Some 500) in
  createReportSchema body = Some ("Q2", draft, high)
  /\ find_report "r2" (world_of five) = None
  /\ fst (get_report "r2" query
            (snd (post_report "r2" "t5" "t5" body (world_of five))))
     = Response.mk 200 (FullJson
         (Full.mk "r2" "Q2" draft high "t5" "t5" 1 (Metrics.mk 0 0)
            (Some []) (Some (Pagination.mk 3 100 0 0)))).
Proof.
  intros body query. split; [reflexivity|]. split; [reflexivity|].
  destruct (create_then_get (world_of five) "r2" "t5" "t5" body "Q2" draft high query
              eq_refl eq_refl) as [_ Hget].
  exact Hget.
Defined.


(** ** Further properties: updates *)

(** X3. A PUT that is not answered 200 (validation error, unknown id,
    version conflict) changes nothing at all. *)
Theorem put_failure_changes_nothing (w : World) now id (body : Updates.t) :
  Response.status (fst (put_report now id body w)) <> 200 ->
  snd (put_report now id body w) = w
  /\ (Response.status (fst (put_report now id body w)) = 400
      \/ Response.status (fst (put_report now id body w)) = 404
      \/ Response.status (fst (put_report now id body w)) = 409).
Proof.
  intros Hfail.
  destruct (updateReportSchema body) as [updates|] eqn:Hv.
  - apply updateReportSchema_id in Hv as Heq. subst updates.
    destruct (find_report id w) as [[k r]|] eqn:Hfind.
    + destruct (conflicts body r) eqn:Hc.
      * rewrite (put_report_conflict _ _ _ _ _ _ Hv Hfind Hc). auto.
      * by rewrite (put_report_applied _ _ _ _ _ _ Hv Hfind Hc) in Hfail.
    + rewrite (put_report_missing _ _ _ _ Hv Hfind). auto.
  - rewrite (put_report_invalid _ _ _ _ Hv). auto.
Qed.

Lemma put_failure_changes_nothing_witness :
  Response.status
    (fst (put_report "t2" "r1" (Updates.mk (Some "") None None None) (world_of five)))
    <> 200
  /\ snd (put_report "t2" "r1" (Updates.mk (Some "") None None None) (world_of five))
     = world_of five.
Proof.
  split; [discriminate|].
  apply (put_failure_changes_nothing (world_of five) "t2" "r1"
           (Updates.mk (Some "") None None None)).
  discriminate.
Defined.

(** X4. A successful PUT replaces the addressed report and nothing else:
    the other reports and all arrays are as before, and in the addressed
    report id, createdAt, entries, metrics and attachments are kept. *)
Theorem put_touches_one_report (w : World) now id (body : Updates.t) k r :
  find_report id w = Some (k, r) ->
  Response.status (fst (put_report now id body w)) = 200 ->
  exists r',
    snd (put_report now id body w) = mkWorld (<[k := r']> (reports w)) (arrays w)
    /\ reports (snd (put_report now id body w)) !! k = Some r'
    /\ (forall j, j <> k ->
        reports (snd (put_report now id body w)) !! j = reports w !! j)
    /\ length (reports (snd (put_report now id body w))) = length (reports w)
    /\ Report.id r' = Report.id r
    /\ Report.createdAt r' = Report.createdAt r
    /\ Report.entries r' = Report.entries r
    /\ Report.metrics r' = Report.metrics r
    /\ Report.attachments r' = Report.attachments r.
Proof.
  intros Hfind Hok.
  destruct (put_report_ok _ _ _ _ _ _ Hfind Hok) as [Hv Hc].
  rewrite (put_report_applied _ _ _ _ _ _ Hv Hfind Hc). cbn [snd reports].
  exists (updated now body r). split_and!; try done.
  - apply list_lookup_insert_eq. eapply lookup_lt_Some, find_report_slot, Hfind.
  - intros j Hne. by apply list_lookup_insert_ne.
  - apply length_insert.
Qed.

Lemma put_touches_one_report_witness :
  let body := Updates.mk None (Some submitted) None (Some 2) in
  find_report "r1" (world_of five) = Some (0%nat, report_v2)
  /\ Response.status (fst (put_report "t2" "r1" body (world_of five))) = 200
  /\ exists r',
       snd (put_report "t2" "r1" body (world_of five)) = mkWorld [r'] [five]
       /\ Report.id r' = "r1".
Proof.
  intros body. split; [reflexivity|]. split; [reflexivity|].
  destruct (put_touches_one_report (world_of five) "t2" "r1" body 0%nat report_v2
              eq_refl eq_refl) as (r' & Hw & _ & _ & _ & Hid & _).
  exists r'. split; [exact Hw|exact Hid].
Defined.

Lemma changed_fields_spec (body : Updates.t) (r : Report.t) now :
  ("title" ∈ changed_fields body r
     <-> Report.title (updated now body r) <> Report.title r)
  /\ ("status" ∈ changed_fields body r
        <-> Report.status (updated now body r) <> Report.status r)
  /\ ("priority" ∈ changed_fields body r
        <-> Report.priority (updated now body r) <> Report.priority r)
  /\ changed_fields body r `sublist_of` ["title"; "status"; "priority"].
Proof.
  unfold changed_fields, updated. cbn.
  destruct (Updates.title body) as [t|], (Updates.status body) as [s|],
    (Updates.priority body) as [p|]; cbn;
    repeat (destruct (decide _)); cbn;
    (split_and!; [| | |by repeat (first [apply sublist_skip | apply sublist_cons
                                         | apply sublist_nil])]);
    rewrite ?elem_of_cons, ?elem_of_nil; split; intros; try done;
    repeat match goal with H : _ \/ _ |- _ => destruct H end;
    try discriminate; try tauto; try congruence; auto.
Qed.

(** X5. After a successful PUT the audit log is the old one plus one line,
    which names, in the order title, status, priority, exactly the fields
    whose stored value changed. *)
Theorem audit_names_changed_fields (w : World) now id (body : Updates.t) k r :
  find_report id w = Some (k, r) ->
  Response.status (fst (put_report now id body w)) = 200 ->
  exists r' fields,
    reports (snd (put_report now id body w)) !! k = Some r'
    /\ audit_log r' = audit_log r ++ [audit_line now fields]
    /\ fields `sublist_of` ["title"; "status"; "priority"]
    /\ ("title" ∈ fields <-> Report.title r' <> Report.title r)
    /\ ("status" ∈ fields <-> Report.status r' <> Report.status r)
    /\ ("priority" ∈ fields <-> Report.priority r' <> Report.priority r).
Proof.
  intros Hfind Hok.
  destruct (put_report_ok _ _ _ _ _ _ Hfind Hok) as [Hv Hc].
  exists (updated now body r), (changed_fields body r).
  destruct (changed_fields_spec body r now) as (Ht & Hs & Hp & Hsub).
  split; [by apply put_report_slot|]. split; [done|]. by split_and!.
Qed.

Lemma audit_names_changed_fields_witness :
  let body := Updates.mk (Some "Q1 final") (Some submitted) (Some high) (Some 2) in
  find_report "r1" (world_of five) = Some (0%nat, report_v2)
  /\ Response.status (fst (put_report "t2" "r1" body (world_of five))) = 200
  /\ exists r',
       reports (snd (put_report "t2" "r1" body (world_of five))) !! 0%nat = Some r'
       /\ audit_log r'
          = ["Updated fields: title at t1"; "Updated fields: status, priority at t2"].
Proof.
  intros body. split; [reflexivity|]. split; [reflexivity|].
  destruct (audit_names_changed_fields (world_of five) "t2" "r1" body 0%nat report_v2
              eq_refl eq_refl) as (r' & fields & Hk & _).
  exists r'. split; [exact Hk|].
  vm_compute in Hk. injection Hk as <-. reflexivity.
Defined.

(** X6. Two updates made from the same version cannot both go through: if
    the first is applied, the second, whatever its fields, is answered 409
    and changes nothing, so the report is the one the first update left. *)
Theorem second_writer_conflicts (w : World) id k r now1 now2
    (first second : Updates.t) :
  find_report id w = Some (k, r) ->
  Response.status (fst (put_report now1 id first w)) = 200 ->
  updateReportSchema second = Some second ->
  Updates.version second = Some (Report.version r) ->
  Report.version r <> 0 ->
  let w1 := snd (put_report now1 id first w) in
  put_report now2 id second w1
    = (conflict_response (updated now1 first r), w1)
  /\ Response.status (fst (put_report now2 id second w1)) = 409
  /\ reports (snd (put_report now2 id second w1)) !! k = Some (updated now1 first r).
Proof.
  intros Hfind Hok Hv2 Hver Hnz w1.
  destruct (put_report_ok _ _ _ _ _ _ Hfind Hok) as [Hv1 Hc1].
  assert (Hfind1 : find_report id w1 = Some (k, updated now1 first r)).
  { pose proof (handle_find (PutReport now1 id first) w id k r Hfind) as H.
    cbn [handle step_report is_update] in H.
    rewrite (targets_found _ _ _ _ Hfind) in H. cbn [handle] in H.
    rewrite bool_decide_true in H by done. exact H. }
  assert (Hc2 : conflicts second (updated now1 first r) = true).
  { unfold conflicts. rewrite Hver. cbn.
    apply andb_true_intro. split.
    - apply negb_true_iff, Z.eqb_neq. done.
    - apply bool_decide_eq_true. intros [= ?]. lia. }
  rewrite (put_report_conflict _ _ _ _ _ _ Hv2 Hfind1 Hc2).
  split; [done|]. split; [done|].
  cbn [snd]. by eapply find_report_slot.
Qed.

Lemma second_writer_conflicts_witness :
  let first := Updates.mk (Some "by Ann") None None (Some 2) in
  let second := Updates.mk (Some "by Bob") None None (Some 2) in
  let w1 := snd (put_report "t2" "r1" first (world_of five)) in
  find_report "r1" (world_of five) = Some (0%nat, report_v2)
  /\ Response.status (fst (put_report "t2" "r1" first (world_of five))) = 200
  /\ Response.status (fst (put_report "t3" "r1" second w1)) = 409
  /\ (Report.title <$> reports (snd (put_report "t3" "r1" second w1)) !! 0%nat)
     = Some "by Ann".
Proof.
  intros first second w1. split; [reflexivity|]. split; [reflexivity|].
  destruct (second_writer_conflicts (world_of five) "r1" 0%nat report_v2 "t2" "t3"
              first second eq_refl eq_refl eq_refl eq_refl ltac:(discriminate))
    as (_ & Hstatus & Hk).
  split; [exact Hstatus|]. fold w1 in Hk. rewrite Hk. reflexivity.
Defined.

(** X7. What a successful PUT stored is what a later GET of the same id
    returns: the supplied title, status and priority (the old value where
    none was supplied), the version one higher, updatedAt the time of the
    update. *)
Theorem put_then_get (w : World) now id (body : Updates.t) k r (query : Query.t) :
  find_report id w = Some (k, r) ->
  Response.status (fst (put_report now id body w)) = 200 ->
  Query.view query <> Some "compact" ->
  wants_entries query = false ->
  fst (get_report id query (snd (put_report now id body w)))
    = Response.mk 200 (FullJson
        (Full.mk (Report.id r)
           (default (Report.title r) (Updates.title body))
           (default (Report.status r) (Updates.status body))
           (default (Report.priority r) (Updates.priority body))
           (Report.createdAt r) now (Report.version r + 1) (Report.metrics r)
           None None)).
Proof.
  intros Hfind Hok Hview Hwant.
  assert (Hfind1 : find_report id (snd (put_report now id body w))
                   = Some (k, updated now body r)).
  { pose proof (handle_find (PutReport now id body) w id k r Hfind) as H.
    cbn [handle step_report is_update] in H.
    rewrite (targets_found _ _ _ _ Hfind) in H. cbn [handle] in H.
    rewrite bool_decide_true in H by done. exact H. }
  by rewrite (get_report_plain _ _ _ _ _ Hfind1 Hview Hwant).
Qed.

Lemma put_then_get_witness :
  let body := Updates.mk None (Some submitted) None None in
  let query := Query.mk None None None None None None in
  find_report "r1" (world_of five) = Some (0%nat, report_v2)
  /\ Response.status (fst (put_report "t2" "r1" body (world_of five))) = 200
  /\ fst (get_report "r1" query (snd (put_report "t2" "r1" body (world_of five))))
     = Response.mk 200 (FullJson
         (Full.mk "r1" "Q1 final" submitted medium "t0" "t2" 3 (Metrics.mk 0 0)
            None None)).
Proof.
  intros body query. split; [reflexivity|]. split; [reflexivity|].
  exact (put_then_get (world_of five) "t2" "r1" body 0%nat report_v2 query
           eq_refl eq_refl ltac:(discriminate) eq_refl).
Defined.

(** ** Further properties: attachments *)

(** X8. A successful upload appends exactly one attachment, whose url is
    "/uploads/" followed by the stored file name, and one audit line; the
    earlier attachments and audit lines, every other field of the report,
    the other reports and all arrays are as before. *)
Theorem attachment_is_appended (w : World) now id (file : File.t) k r :
  find_report id w = Some (k, r) ->
  exists r',
    post_attachment now id (Some file) w
      = (Response.mk 201 (Uploaded "File uploaded" (attachment_of file)),
         mkWorld (<[k := r']> (reports w)) (arrays w))
    /\ Attachment.url (attachment_of file) = "/uploads/" +:+ File.filename file
    /\ attachment_list r' = attachment_list r ++ [attachment_of file]
    /\ audit_log r'
       = audit_log r
         ++ ["Uploaded attachment: " +:+ File.originalname file +:+ " at " +:+ now]
    /\ Report.set_attachments (Report.attachments r)
         (Report.set_auditLogs (Report.auditLogs r) r') = r
    /\ (forall j, j <> k ->
        reports (snd (post_attachment now id (Some file) w)) !! j = reports w !! j).
Proof.
  intros Hfind. exists (attached now file r).
  rewrite (post_attachment_applied _ _ _ _ _ _ Hfind). cbn [snd reports].
  split_and!; try done.
  - by destruct r.
  - intros j Hne. by apply list_lookup_insert_ne.
Qed.

Lemma attachment_is_appended_witness :
  find_report "r1" (world_of five) = Some (0%nat, report_v2)
  /\ exists r',
       snd (post_attachment "t2" "r1" (Some pdf) (world_of five)) = mkWorld [r'] [five]
       /\ attachment_list r'
          = [Attachment.mk "file-1.pdf" "q1.pdf" "application/pdf" 1024
               "/uploads/file-1.pdf"]
       /\ audit_log r'
          = ["Updated fields: title at t1"; "Uploaded attachment: q1.pdf at t2"].
Proof.
  split; [reflexivity|].
  destruct (attachment_is_appended (world_of five) "t2" "r1" pdf 0%nat report_v2
              eq_refl) as (r' & Hrun & _ & Hatt & Hlog & _).
  exists r'. split; [by rewrite Hrun|]. split; [exact Hatt|exact Hlog].
Defined.

(** X9. An upload that is not answered 201 changes nothing. An unknown id
    is answered 404 whether or not a file came with the request; a known id
    without a file is answered 400. *)
Theorem attachment_failure_changes_nothing (w : World) now id (file : option File.t) :
  Response.status (fst (post_attachment now id file w)) <> 201 ->
  snd (post_attachment now id file w) = w
  /\ ((find_report id w = None
       /\ fst (post_attachment now id file w) = not_found id)
      \/ (is_Some (find_report id w) /\ file = None
          /\ fst (post_attachment now id file w)
             = Response.mk 400 (Error "NO_FILE" "No file uploaded"))).
Proof.
  intros Hfail. destruct (find_report id w) as [[k r]|] eqn:Hfind.
  - destruct file as [f|].
    + by rewrite (post_attachment_applied _ _ _ _ _ _ Hfind) in Hfail.
    + rewrite (post_attachment_no_file _ _ _ _ _ Hfind). split; [done|].
      right. split; [by eexists|done].
  - rewrite (post_attachment_missing _ _ _ _ Hfind). split; [done|]. by left.
Qed.

Lemma attachment_failure_changes_nothing_witness :
  Response.status (fst (post_attachment "t2" "r9" (Some pdf) (world_of five))) <> 201
  /\ post_attachment "t2" "r9" (Some pdf) (world_of five)
     = (not_found "r9", world_of five).
Proof.
  split; [discriminate|].
  destruct (attachment_failure_changes_nothing (world_of five) "t2" "r9" (Some pdf)
              ltac:(discriminate)) as [Hw [[_ Hres]|(_ & Hfile & _)]].
  - by apply injective_projections.
  - discriminate Hfile.
Defined.

(** ** Further properties: sequences of requests *)

Lemma is_append_no_file k now id w : is_append k (PostAttachment now id None) w = false.
Proof.
  cbn [is_append handle]. apply andb_false_intro2, bool_decide_eq_false.
  destruct (find_report id w) as [[k0 r0]|] eqn:Hfind.
  - by rewrite (post_attachment_no_file _ _ _ _ _ Hfind).
  - by rewrite (post_attachment_missing _ _ _ _ Hfind).
Qed.

Lemma is_append_not_update k req w : is_append k req w = true -> is_update k req w = false.
Proof. by destruct req. Qed.

Lemma later_state_refl r : later_state r r.
Proof. unfold later_state. split_and!; done. Qed.

Lemma later_state_trans r1 r2 r3 :
  later_state r1 r2 -> later_state r2 r3 -> later_state r1 r3.
Proof.
  unfold later_state. intros (?&?&?&?&?&?&?) (?&?&?&?&?&?&?).
  split_and!; try congruence; try lia; by etrans.
Qed.

Lemma step_report_later k req w r : later_state r (step_report k req w r).
Proof.
  destruct req as [| now id [f|] | | now id body]; cbn [step_report];
    try apply later_state_refl.
  - destruct (is_append _ _ _); [|apply later_state_refl].
    unfold later_state, audit_log, attachment_list. cbn.
    split_and!; try done; by apply prefix_app_r.
  - destruct (is_update _ _ _); [|apply later_state_refl].
    unfold later_state, audit_log, attachment_list. cbn.
    split_and!; try done; [lia|by apply prefix_app_r].
Qed.

(** One request and the lengths of the audit log and of the attachments. *)
Lemma step_report_lengths k req w r :
  length (audit_log (step_report k req w r))
    = (length (audit_log r) + (if is_update k req w then 1 else 0)
       + (if is_append k req w then 1 else 0))%nat
  /\ length (attachment_list (step_report k req w r))
     = (length (attachment_list r) + (if is_append k req w then 1 else 0))%nat.
Proof.
  destruct req as [| now id [f|] | | now id body]; cbn [step_report].
  - cbn. lia.
  - cbn [is_update]. destruct (is_append _ _ _).
    + unfold audit_log, attachment_list. cbn. rewrite !length_app. cbn. lia.
    + lia.
  - rewrite is_append_no_file. cbn. lia.
  - cbn. lia.
  - cbn [is_append]. destruct (is_update _ _ _).
    + unfold audit_log, attachment_list. cbn. rewrite !length_app. cbn. lia.
    + lia.
Qed.

Lemma serve_find (reqs : list Request) (w : World) id k r :
  find_report id w = Some (k, r) ->
  exists r',
    find_report id (snd (serve reqs w)) = Some (k, r') /\ later_state r r'.
Proof.
  revert w r. induction reqs as [|req reqs IH]; intros w r Hfind.
  - exists r. split; [done|apply later_state_refl].
  - destruct (IH _ _ (handle_find req w id k r Hfind)) as (r' & Hfind' & Hlater).
    exists r'. rewrite serve_cons. split; [done|].
    eapply later_state_trans; [apply step_report_later|done].
Qed.

Lemma serve_arrays (reqs : list Request) (w : World) :
  exists fresh, arrays (snd (serve reqs w)) = arrays w ++ fresh.
Proof.
  revert w. induction reqs as [|req reqs IH]; intros w.
  - exists []. by rewrite app_nil_r.
  - rewrite serve_cons. destruct (IH (snd (handle req w))) as [fresh2 ->].
    destruct (handle_arrays req w) as [fresh1 ->].
    exists (fresh1 ++ fresh2). by rewrite app_assoc.
Qed.

(** X10. No request removes, moves or re-identifies a report: after any
    sequence of requests an id resolves to the same slot as before, and the
    report there has the same id, createdAt, entries array and metrics, a
    version that is not lower, and an audit log and an attachment list that
    extend the old ones; the elements of its entries array are unchanged. *)
Theorem reports_persist (reqs : list Request) (w : World) id k r :
  find_report id w = Some (k, r) ->
  exists r',
    find_report id (snd (serve reqs w)) = Some (k, r')
    /\ Report.id r' = Report.id r
    /\ Report.createdAt r' = Report.createdAt r
    /\ Report.entries r' = Report.entries r
    /\ Report.metrics r' = Report.metrics r
    /\ Report.version r <= Report.version r'
    /\ audit_log r `prefix_of` audit_log r'
    /\ attachment_list r `prefix_of` attachment_list r'
    /\ (forall es, arrays w !! Report.entries r = Some es ->
        arrays (snd (serve reqs w)) !! Report.entries r' = Some es).
Proof.
  intros Hfind.
  destruct (serve_find reqs w id k r Hfind) as (r' & Hfind' & Hlater).
  exists r'. split; [done|].
  destruct Hlater as (?&?&He&?&?&?&?). split_and!; try done.
  intros es Hes. rewrite He.
  destruct (serve_arrays reqs w) as [fresh ->]. by apply lookup_app_l_Some.
Qed.

Lemma reports_persist_witness :
  let reqs :=
    [PostReport "r1" "t5" "t5" (CreateBody.mk (Some "shadow") None None);
     PutReport "t6" "r1" (Updates.mk (Some "Q1 again") None None None);
     GetReport "r1" (query_entries None (Some "priority_desc") None None);
     PostAttachment "t7" "r1" (Some pdf)] in
  find_report "r1" (world_of five) = Some (0%nat, report_v2)
  /\ exists r',
       find_report "r1" (snd (serve reqs (world_of five))) = Some (0%nat, r')
       /\ Report.createdAt r' = "t0"
       /\ arrays (snd (serve reqs (world_of five))) !! Report.entries r' = Some five.
Proof.
  intros reqs. split; [reflexivity|].
  destruct (reports_persist reqs (world_of five) "r1" 0%nat report_v2 eq_refl)
    as (r' & Hfind & _ & Hcreated & _ & _ & _ & _ & _ & Harr).
  exists r'. split; [exact Hfind|]. split; [exact Hcreated|].
  exact (Harr five eq_refl).
Defined.

(** X11. The audit log of a report grows by one line per successful update
    and per successful upload and by nothing else, and its attachment list
    by one attachment per successful upload. *)
Theorem audit_log_counts_mutations (reqs : list Request) (w : World) k r :
  reports w !! k = Some r ->
  exists r',
    reports (snd (serve reqs w)) !! k = Some r'
    /\ length (audit_log r')
       = (length (audit_log r) + count_along (is_update k) reqs w
          + count_along (is_append k) reqs w)%nat
    /\ length (attachment_list r')
       = (length (attachment_list r) + count_along (is_append k) reqs w)%nat.
Proof.
  revert w r. induction reqs as [|req reqs IH]; intros w r Hk.
  - exists r. cbn. split; [done|]. lia.
  - destruct (IH _ _ (handle_slot_exact req w k r Hk)) as (r' & Hk' & Hlog & Hatt).
    exists r'. rewrite serve_cons. split; [done|].
    destruct (step_report_lengths k req w r) as [Hl1 Hl2].
    rewrite Hlog, Hatt, Hl1, Hl2. cbn [count_along]. lia.
Qed.

Lemma audit_log_counts_mutations_witness :
  let reqs :=
    [PutReport "t2" "r1" (only_version 1);
     PostAttachment "t3" "r1" (Some pdf);
     PostAttachment "t4" "r1" None;
     PutReport "t5" "r1" (only_version 2);
     GetReport "r1" query_compact] in
  reports (world_of five) !! 0%nat = Some report_v2
  /\ map Response.status (fst (serve reqs (world_of five))) = [409; 201; 400; 200; 200]
  /\ exists r',
       reports (snd (serve reqs (world_of five))) !! 0%nat = Some r'
       /\ length (audit_log r') = 3%nat
       /\ length (attachment_list r') = 1%nat.
Proof.
  intros reqs. split; [reflexivity|]. split; [reflexivity|].
  destruct (audit_log_counts_mutations reqs (world_of five) 0%nat report_v2 eq_refl)
    as (r' & Hk & Hlog & Hatt).
  exists r'. split; [exact Hk|]. split; [exact Hlog|exact Hatt].
Defined.

Lemma handle_slot_origin (req : Request) (w : World) k r' :
  reports (snd (handle req w)) !! k = Some r' ->
  (exists r, reports w !! k = Some r /\ r' = step_report k req w r)
  \/ r' ∈ req_created req w.
Proof.
  intros Hk'. destruct (reports w !! k) as [r|] eqn:Hk.
  - left. exists r. split; [done|].
    rewrite (handle_slot_exact req w k r Hk) in Hk'. congruence.
  - right. rewrite handle_reports in Hk'.
    apply lookup_app_Some in Hk' as [Hl|[_ Hr]].
    + apply lookup_lt_Some in Hl. apply lookup_ge_None in Hk.
      destruct (req_target req w) as [[k0 r0]|]; [rewrite length_insert in Hl|]; lia.
    + by eapply list_elem_of_lookup_2.
Qed.

Lemma no_entries_handle (req : Request) (w : World) :
  no_entries w -> no_entries (snd (handle req w)).
Proof.
  intros Hinv k r' Hk'.
  destruct (handle_slot_origin req w k r' Hk') as [(r & Hk & ->)|Hnew].
  - destruct (Hinv k r Hk) as [Harr Hm].
    destruct (step_report_later k req w r) as (_ & _ & -> & -> & _).
    split; [|done].
    destruct (handle_arrays req w) as [fresh ->]. by apply lookup_app_l_Some.
  - destruct req as [uuid now1 now2 body| | |]; cbn [req_created] in Hnew;
      try by apply elem_of_nil in Hnew.
    destruct (createReportSchema body) as [[[t s] p]|] eqn:Hv;
      [|by apply elem_of_nil in Hnew].
    apply list_elem_of_singleton in Hnew as ->.
    cbn [handle]. rewrite (post_report_created _ _ _ _ _ _ _ _ Hv).
    cbn [snd arrays created Report.entries Report.metrics].
    split; [|done]. by apply list_lookup_middle.
Qed.

Lemma no_entries_serve (reqs : list Request) (w : World) :
  no_entries w -> no_entries (snd (serve reqs w)).
Proof.
  revert w. induction reqs as [|req reqs IH]; intros w Hinv; [done|].
  rewrite serve_cons. by apply IH, no_entries_handle.
Qed.

(** X12. No route adds an entry or touches the metrics: in every world the
    requests can reach from the empty store, each report has an empty
    entries array and the metrics {0, 0}; so there every GET that returns
    entries returns none, and every compact view has entryCount 0 and
    highPriorityRate 0. *)
Theorem reachable_reports_have_no_entries (reqs : list Request) :
  let w := snd (serve reqs (mkWorld [] [])) in
  no_entries w
  /\ (forall id query es,
        entries_of (fst (get_report id query w)) = Some es -> es = [])
  /\ (forall id query c,
        Response.body (fst (get_report id query w)) = CompactJson c ->
        Compact.metrics c = Metrics.mk 0 0
        /\ Compact.entryCount c = 0
        /\ Compact.highPriorityRate c = 0%Q).
Proof.
  intros w.
  assert (Hinv : no_entries w).
  { apply no_entries_serve. intros k r Hk. cbn in Hk. by destruct k. }
  split; [exact Hinv|].
  assert (Hes : forall id k r, find_report id w = Some (k, r) ->
                               elements w (Report.entries r) = []).
  { intros id k r Hfind. unfold elements.
    destruct (Hinv k r (find_report_slot _ _ _ _ Hfind)) as [-> _]. done. }
  split.
  - intros id query es.
    destruct (find_report id w) as [[k r]|] eqn:Hfind.
    + destruct (decide (Query.view query = Some "compact")) as [Hview|Hview].
      * by rewrite (get_report_compact _ _ _ _ _ Hfind Hview).
      * destruct (wants_entries query) eqn:Hwant.
        -- rewrite (get_report_entries_fst _ _ _ _ _ Hfind Hview Hwant).
           rewrite (Hes _ _ _ Hfind), entry_query_nil. cbn. congruence.
        -- by rewrite (get_report_plain _ _ _ _ _ Hfind Hview Hwant).
    + by rewrite (get_report_missing _ _ _ Hfind).
  - intros id query c.
    destruct (find_report id w) as [[k r]|] eqn:Hfind.
    + destruct (decide (Query.view query = Some "compact")) as [Hview|Hview].
      * rewrite (get_report_compact _ _ _ _ _ Hfind Hview).
        rewrite (Hes _ _ _ Hfind). cbn. intros [= <-]. cbn.
        by destruct (Hinv k r (find_report_slot _ _ _ _ Hfind)) as [_ ->].
      * destruct (wants_entries query) eqn:Hwant.
        -- by rewrite (get_report_entries_fst _ _ _ _ _ Hfind Hview Hwant).
        -- by rewrite (get_report_plain _ _ _ _ _ Hfind Hview Hwant).
    + by rewrite (get_report_missing _ _ _ Hfind).
Qed.

(** ** Further properties: the entries block of GET /reports/:id *)

Lemma chunks_concat {A} (s : nat) (n : nat) (l : list A) :
  (0 < s)%nat -> (length l <= n * s)%nat ->
  concat (map (fun i : nat => take s (drop (i * s) l)) (seq 0 n)) = l.
Proof.
  intros Hs. revert l. induction n as [|n IH]; intros l Hl.
  - destruct l; [done|simpl in Hl; lia].
  - rewrite <- cons_seq, <- fmap_S_seq. cbn [map concat].
    change (fmap S (seq 0 n)) with (map S (seq 0 n)). rewrite map_map.
    transitivity (take s l ++ drop s l); [|apply take_drop]. f_equal.
    rewrite <- (IH (drop s l)) by (rewrite length_drop; lia).
    f_equal. apply map_ext. intros i. rewrite drop_drop. do 2 f_equal; lia.
Qed.

Lemma valid_page_with_page p query : 1 <= p -> valid_page (with_page p query) = p.
Proof.
  intros Hp. unfold valid_page, with_page. cbn. destruct (decide (p = 0)); lia.
Qed.

Lemma page_stage_with_page p query es :
  1 <= p ->
  fst (page_stage (with_page p query) es)
    = take (Z.to_nat (valid_size query))
        (drop (Z.to_nat (p - 1) * Z.to_nat (valid_size query)) es).
Proof.
  intros Hp. unfold page_stage. cbn [fst].
  rewrite valid_page_with_page by done.
  change (valid_size (with_page p query)) with (valid_size query).
  pose proof (valid_size_range query).
  rewrite slice_window by nia. do 2 f_equal. nia.
Qed.

Lemma get_report_page (w : World) id query k report p :
  find_report id w = Some (k, report) ->
  Query.view query <> Some "compact" ->
  wants_entries query = true ->
  entries_of (fst (get_report id (with_page p query) w))
    = Some (fst (page_stage (with_page p query)
                   (sort_stage query
                      (filter_stage query (elements w (Report.entries report)))))).
Proof.
  intros Hfind Hview Hwant.
  by rewrite (get_report_entries_fst w id (with_page p query) k report Hfind Hview Hwant).
Qed.

(** X13. The pages 1, ..., totalPages of a report's entries, one after the
    other, are exactly the filtered and sorted collection: every entry is
    on one page, none on two; the pages after totalPages are empty. *)
Theorem pages_partition (w : World) id (query : Query.t) k report :
  find_report id w = Some (k, report) ->
  Query.view query <> Some "compact" ->
  wants_entries query = true ->
  let all := sort_stage query (filter_stage query (elements w (Report.entries report))) in
  let totalPages := ceil_div (Z.of_nat (length all)) (valid_size query) in
  pagination_of (fst (get_report id query w))
    = Some (Pagination.mk (valid_page query) (valid_size query) totalPages
              (Z.of_nat (length all)))
  /\ concat (map (fun p => default [] (entries_of (fst (get_report id (with_page p query) w))))
               (page_numbers totalPages)) = all
  /\ (forall p, totalPages < p ->
      entries_of (fst (get_report id (with_page p query) w)) = Some []).
Proof.
  intros Hfind Hview Hwant all totalPages.
  pose proof (valid_size_range query) as Hsize.
  pose proof (ceil_div_least (Z.of_nat (length all)) (valid_size query) ltac:(lia))
    as Hceil. fold totalPages in Hceil.
  assert (0 <= totalPages) as Hpages by (apply ceil_div_nonneg; lia).
  split.
  { by rewrite (get_report_entries_fst _ _ _ _ _ Hfind Hview Hwant). }
  split.
  - unfold page_numbers. rewrite map_map.
    etransitivity;
      [|apply (chunks_concat (Z.to_nat (valid_size query)) (Z.to_nat totalPages) all);
        nia].
    f_equal. apply map_ext. intros i.
    rewrite (get_report_page _ _ _ _ _ _ Hfind Hview Hwant).
    fold all. rewrite page_stage_with_page by lia.
    replace (Z.to_nat (Z.of_nat (S i) - 1)) with i by lia. reflexivity.
  - intros p Hp. rewrite (get_report_page _ _ _ _ _ _ Hfind Hview Hwant).
    fold all. f_equal. unfold page_stage. cbn [fst]. apply slice_beyond.
    rewrite valid_page_with_page by lia.
    change (valid_size (with_page p query)) with (valid_size query). nia.
Qed.

Lemma pages_partition_witness :
  let query := query_entries None None None (Some 2) in
  let page p := default [] (entries_of (fst (get_report "r1" (with_page p query)
                                               (world_of five)))) in
  find_report "r1" (world_of five) = Some (0%nat, report_v2)
  /\ wants_entries query = true
  /\ page 1 ++ page 2 ++ page 3 = five
  /\ page 4 = [].
Proof.
  intros query page. split; [reflexivity|]. split; [reflexivity|].
  destruct (pages_partition (world_of five) "r1" query 0%nat report_v2
              eq_refl ltac:(discriminate) eq_refl) as (_ & Hall & Hlate).
  split; [|reflexivity].
  etransitivity; [|exact Hall]. reflexivity.
Defined.

Lemma length_slice_window {A} (start width : Z) (a : list A) :
  0 <= start -> 0 <= width ->
  Z.of_nat (length (slice start (start + width) a)) <= width
  /\ (start + width <= Z.of_nat (length a) ->
      Z.of_nat (length (slice start (start + width) a)) = width)
  /\ (slice start (start + width) a <> [] -> start < Z.of_nat (length a)).
Proof.
  intros Hs Hw. rewrite slice_window by done.
  rewrite length_take, length_drop. split_and!; [lia|lia|].
  intros Hne. destruct (Z_lt_le_dec start (Z.of_nat (length a))); [done|].
  rewrite drop_ge, take_nil in Hne by lia. done.
Qed.

(** X14. Whatever the request, a response never carries more than
    entries_pagination.size entries, and that size is between 1 and 100; a
    page that lies wholly inside the collection has exactly size entries,
    and a page that has an entry has a number of at most totalPages. *)
Theorem page_length_bounds (w : World) id (query : Query.t) es :
  entries_of (fst (get_report id query w)) = Some es ->
  exists pag,
    pagination_of (fst (get_report id query w)) = Some pag
    /\ 1 <= Pagination.page pag
    /\ 1 <= Pagination.size pag <= 100
    /\ Z.of_nat (length es) <= Pagination.size pag
    /\ (Pagination.page pag * Pagination.size pag <= Pagination.totalEntries pag ->
        Z.of_nat (length es) = Pagination.size pag)
    /\ (es <> [] -> Pagination.page pag <= Pagination.totalPages pag).
Proof.
  destruct (find_report id w) as [[k r]|] eqn:Hfind.
  - destruct (decide (Query.view query = Some "compact")) as [Hview|Hview].
    + by rewrite (get_report_compact _ _ _ _ _ Hfind Hview).
    + destruct (wants_entries query) eqn:Hwant.
      * rewrite (get_report_entries_fst _ _ _ _ _ Hfind Hview Hwant).
        unfold entry_query, page_stage. cbn. intros [= <-].
        set (all := sort_stage query _).
        eexists. split; [reflexivity|]. cbn.
        pose proof (valid_size_range query) as Hsize.
        assert (1 <= valid_page query) as Hpage by (unfold valid_page; lia).
        destruct (length_slice_window ((valid_page query - 1) * valid_size query)
                    (valid_size query) all ltac:(nia) ltac:(lia)) as (Hle & Hfull & Hne).
        pose proof (ceil_div_least (Z.of_nat (length all)) (valid_size query)
                      ltac:(lia)) as Hceil.
        split; [done|]. split; [done|]. split; [exact Hle|].
        split.
        -- intros Hin. apply Hfull. nia.
        -- intros Hsome. specialize (Hne Hsome). nia.
      * by rewrite (get_report_plain _ _ _ _ _ Hfind Hview Hwant).
  - by rewrite (get_report_missing _ _ _ Hfind).
Qed.

Lemma page_length_bounds_witness :
  let query := query_entries None None (Some 2) (Some 2) in
  entries_of (fst (get_report "r1" query (world_of five)))
    = Some [entry "c" medium; entry "d" high]
  /\ exists pag,
       pagination_of (fst (get_report "r1" query (world_of five))) = Some pag
       /\ Pagination.size pag = 2 /\ Pagination.totalPages pag = 3.
Proof.
  intros query. split; [reflexivity|].
  destruct (page_length_bounds (world_of five) "r1" query
              [entry "c" medium; entry "d" high] eq_refl) as (pag & Hpag & _).
  exists pag. split; [exact Hpag|].
  vm_compute in Hpag. injection Hpag as <-. split; reflexivity.
Defined.

Lemma sort_stage_perm query es : Permutation (sort_stage query es) es.
Proof.
  unfold sort_stage. destruct (truthy_string _); [|done].
  destruct (sort_request _). apply sort_perm.
Qed.

Lemma slice_elem_of {A} (start end_ : Z) (a : list A) x :
  x ∈ slice start end_ a -> x ∈ a.
Proof.
  unfold slice. intros Hx. by apply (subseteq_take _ _ x), (subseteq_drop _ _ x) in Hx.
Qed.

(** X15. The entries a GET returns are entries of the report, and with
    entries_highPriorityOnly=true each of them has priority high and
    totalEntries counts the high-priority entries of the report; with any
    other value of the parameter totalEntries counts all entries. *)
Theorem returned_entries_are_stored (w : World) id (query : Query.t) k report es pag :
  find_report id w = Some (k, report) ->
  entries_of (fst (get_report id query w)) = Some es ->
  pagination_of (fst (get_report id query w)) = Some pag ->
  let stored := elements w (Report.entries report) in
  (forall e, e ∈ es -> e ∈ stored)
  /\ (Query.entries_highPriorityOnly query = Some "true" ->
      (forall e, e ∈ es -> Entry.priority e = high)
      /\ Pagination.totalEntries pag
         = Z.of_nat (length (List.filter is_high stored)))
  /\ (Query.entries_highPriorityOnly query <> Some "true" ->
      Pagination.totalEntries pag = Z.of_nat (length stored)).
Proof.
  intros Hfind Hes Hpag stored.
  destruct (decide (Query.view query = Some "compact")) as [Hview|Hview].
  { by rewrite (get_report_compact _ _ _ _ _ Hfind Hview) in Hes. }
  destruct (wants_entries query) eqn:Hwant.
  2: { by rewrite (get_report_plain _ _ _ _ _ Hfind Hview Hwant) in Hes. }
  rewrite (get_report_entries_fst _ _ _ _ _ Hfind Hview Hwant) in Hes, Hpag.
  unfold entry_query, page_stage in Hes, Hpag. cbn in Hes, Hpag.
  injection Hes as <-. injection Hpag as <-. cbn.
  fold stored. rewrite sort_stage_length.
  assert (Hsub : forall e,
             e ∈ slice ((valid_page query - 1) * valid_size query)
                   ((valid_page query - 1) * valid_size query + valid_size query)
                   (sort_stage query (filter_stage query stored)) ->
             e ∈ filter_stage query stored).
  { intros e He%slice_elem_of. by rewrite sort_stage_perm in He. }
  split_and!.
  - intros e He%Hsub. unfold filter_stage in He.
    destruct (bool_decide _); [|done].
    apply list_elem_of_In, filter_In in He as [He _]. by apply list_elem_of_In.
  - intros Hhp. unfold filter_stage in *. rewrite bool_decide_true in * by done.
    split; [|done]. intros e He%Hsub.
    apply list_elem_of_In, filter_In in He as [_ He].
    by apply bool_decide_eq_true in He.
  - intros Hhp. unfold filter_stage. by rewrite bool_decide_false.
Qed.

Lemma returned_entries_are_stored_witness :
  let query := query_entries (Some "true") (Some "id_desc") None None in
  find_report "r1" (world_of five) = Some (0%nat, report_v2)
  /\ entries_of (fst (get_report "r1" query (world_of five)))
     = Some [entry "d" high; entry "b" high]
  /\ (Pagination.totalEntries <$> pagination_of (fst (get_report "r1" query (world_of five))))
     = Some 2.
Proof.
  intros query. split; [reflexivity|]. split; [reflexivity|].
  destruct (returned_entries_are_stored (world_of five) "r1" query 0%nat report_v2
              [entry "d" high; entry "b" high] (Pagination.mk 1 10 1 2)
              eq_refl eq_refl eq_refl) as (_ & Hhigh & _).
  destruct (Hhigh eq_refl) as [_ Htotal]. cbn in Htotal.
  reflexivity.
Defined.

Lemma sort_noop {A} (c : A -> A -> Z) (a : list A) :
  (forall x y, c x y <= 0) -> sort c a = a.
Proof.
  intros Hc. induction a as [|x a IH]; [done|]. simpl. rewrite IH.
  destruct a as [|y a]; [done|]. simpl.
  destruct (Z.ltb_spec 0 (c x y)); [|done]. specialize (Hc x y). lia.
Qed.

Lemma compareFn_unknown field order a b :
  field ∉ ["id"; "content"; "createdAt"; "priority"] ->
  compareFn field order a b = 0.
Proof.
  intros Hf. unfold compareFn, get_field.
  repeat (destruct (decide _) as [->|?];
    [exfalso; apply Hf; rewrite !elem_of_cons; tauto|]).
  reflexivity.
Qed.

Lemma sort_stage_unknown query s es :
  fst (sort_request s) ∉ ["id"; "content"; "createdAt"; "priority"] ->
  sort_stage (with_sort (Some s) query) es = es.
Proof.
  intros Hf. unfold sort_stage, with_sort. cbn [Query.entries_sort].
  destruct (truthy_string (Some s)); [|done]. cbn [default from_option].
  unfold id. destruct (sort_request s) as [field order]. apply sort_noop.
  intros x y. by rewrite compareFn_unknown.
Qed.

(** X16. A sort parameter whose field is none of id, content, createdAt
    and priority is harmless: the response is the one of the same request
    without a sort parameter, with the entries in their filtered order. *)
Theorem unknown_sort_field_is_ignored (w : World) id (query : Query.t) s :
  fst (sort_request s) ∉ ["id"; "content"; "createdAt"; "priority"] ->
  fst (get_report id (with_sort (Some s) query) w)
    = fst (get_report id (with_sort None query) w).
Proof.
  intros Hf.
  destruct (find_report id w) as [[k r]|] eqn:Hfind.
  - destruct (decide (Query.view query = Some "compact")) as [Hview|Hview].
    + by rewrite !(get_report_compact _ _ _ _ _ Hfind).
    + destruct (wants_entries query) eqn:Hwant.
      * rewrite !(get_report_entries_fst _ _ _ _ _ Hfind) by done.
        unfold entry_query. rewrite sort_stage_unknown by done. reflexivity.
      * by rewrite !(get_report_plain _ _ _ _ _ Hfind).
  - by rewrite !get_report_missing.
Qed.

Lemma unknown_sort_field_is_ignored_witness :
  (fst (sort_request "title_desc") ∉ ["id"; "content"; "createdAt"; "priority"])
  /\ entries_of (fst (get_report "r1" (query_entries None (Some "title_desc") None None)
                        (world_of five))) = Some five.
Proof.
  assert (H : fst (sort_request "title_desc")
                ∉ ["id"; "content"; "createdAt"; "priority"]).
  { intros Hin. vm_compute in Hin.
    repeat (apply elem_of_cons in Hin as [Hin|Hin]; [discriminate Hin|]).
    by apply elem_of_nil in Hin. }
  split; [exact H|].
  pose proof (unknown_sort_field_is_ignored (world_of five) "r1"
                (query_entries None None None None) "title_desc" H) as Heq.
  change (with_sort (Some "title_desc") (query_entries None None None None))
    with (query_entries None (Some "title_desc") None None) in Heq.
  rewrite Heq. reflexivity.
Defined.

(** The order of JavaScript's [<] on strings, as [String.compare] has it. *)
Lemma string_ltb_compare s t : String.ltb s t = true <-> String.compare s t = Lt.
Proof. unfold String.ltb. by destruct (String.compare s t). Qed.

Lemma string_le_not_gt s t : string_le s t <-> String.ltb t s = false.
Proof.
  unfold string_le, String.leb, String.ltb. rewrite (String.compare_antisym t s).
  by destruct (String.compare s t).
Qed.

Lemma string_lt_le s t : String.ltb s t = true -> string_le s t.
Proof. unfold String.ltb, string_le, String.leb. by destruct (String.compare s t). Qed.

Lemma string_le_trans s t u : string_le s t -> string_le t u -> string_le s u.
Proof.
  unfold string_le, String.leb. intros Hst Htu.
  destruct (String.compare s t) eqn:Cst; [| |done].
  - apply String.compare_eq_iff in Cst as ->. done.
  - destruct (String.compare t u) eqn:Ctu; [| |done].
    + apply String.compare_eq_iff in Ctu as <-. by rewrite Cst.
    + apply OrderedTypeEx.String_as_OT.cmp_lt in Cst, Ctu.
      pose proof (OrderedTypeEx.String_as_OT.lt_trans _ _ _ Cst Ctu) as Hlt.
      apply OrderedTypeEx.String_as_OT.cmp_lt in Hlt.
      unfold OrderedTypeEx.String_as_OT.cmp in Hlt. by rewrite Hlt.
Qed.

Lemma compareFn_string field order a b :
  field ∈ ["id"; "content"; "createdAt"] ->
  compareFn field order a b =
    if String.ltb (string_key field a) (string_key field b)
    then (if decide (order = Some "desc") then 1 else -1)
    else if String.ltb (string_key field b) (string_key field a)
         then (if decide (order = Some "desc") then -1 else 1)
         else 0.
Proof.
  rewrite !elem_of_cons, elem_of_nil. intros [->|[->|[->|[]]]]; reflexivity.
Qed.

Lemma sort_stage_field query sortParam field order es :
  Query.entries_sort query = Some sortParam ->
  sort_request sortParam = (field, order) ->
  field <> "" ->
  sort_stage query es = sort (compareFn field order) es.
Proof.
  intros Hs Hr Hne. unfold sort_stage. rewrite Hs. cbn [default from_option].
  unfold id. rewrite Hr.
  destruct sortParam; [|done]. injection Hr as <- _. done.
Qed.

(** X17. Sorting by id, content or createdAt orders the entries by that
    string, ascending unless the order token is "desc", in which case
    descending; the result has the same entries, and entries with equal
    strings keep their relative order. *)
Theorem string_field_sort (query : Query.t) (sortParam field : string)
    (order : option string) (es : list Entry.t) :
  Query.entries_sort query = Some sortParam ->
  sort_request sortParam = (field, order) ->
  field ∈ ["id"; "content"; "createdAt"] ->
  let key := string_key field in
  let out := sort_stage query es in
  (forall w id k report,
     find_report id w = Some (k, report) ->
     Query.view query <> Some "compact" ->
     wants_entries query = true ->
     filter_stage query (elements w (Report.entries report)) = es ->
     entries_of (fst (get_report id query w)) = Some (fst (page_stage query out)))
  /\ Permutation out es
  /\ (order <> Some "desc" ->
      StronglySorted (fun a b => string_le (key a) (key b)) out)
  /\ (order = Some "desc" ->
      StronglySorted (fun a b => string_le (key b) (key a)) out)
  /\ (forall s,
        List.filter (fun e => bool_decide (key e = s)) out
          = List.filter (fun e => bool_decide (key e = s)) es).
Proof.
  intros Hs Hr Hf key out.
  assert (Hout : out = sort (compareFn field order) es).
  { apply (sort_stage_field _ sortParam); [done..|].
    intros ->. revert Hf. rewrite !elem_of_cons, elem_of_nil.
    intros [|[|[|[]]]]; discriminate. }
  assert (Hc := fun a b => compareFn_string field order a b Hf). fold key in Hc.
  split.
  { intros w id k report Hfind Hview Hwant Hes.
    rewrite (get_report_entries_fst _ _ _ _ _ Hfind Hview Hwant).
    unfold entry_query. by rewrite Hes. }
  split; [rewrite Hout; apply sort_perm|].
  assert (Hsolve : forall (u v : bool) (p q : Z),
             (u = true -> v = false) ->
             (p = -1 /\ q = 1) \/ (p = 1 /\ q = -1) ->
             ((if u then p else if v then q else 0) <= 0 -> (if p <? 0 then v else u) = false)
             /\ (0 < (if u then p else if v then q else 0) -> (if p <? 0 then u else v) = false)).
  { intros [] [] p q Huv [[-> ->]|[-> ->]]; cbn; split; intros; try done; try lia;
      by apply Huv. }
  assert (Hasym : forall x y,
             String.ltb (key x) (key y) = true -> String.ltb (key y) (key x) = false).
  { intros x y Hxy. by apply string_le_not_gt, string_lt_le. }
  split.
  { intros Ho. rewrite Hout. apply sort_sorted.
    - intros x y z. apply string_le_trans.
    - intros x y. rewrite Hc, !decide_False, string_le_not_gt by done.
      apply (Hsolve _ _ (-1) 1 (Hasym x y)). by left.
    - intros x y. rewrite Hc, !decide_False, string_le_not_gt by done.
      apply (Hsolve _ _ (-1) 1 (Hasym x y)). by left. }
  split.
  { intros Ho. rewrite Hout. apply sort_sorted.
    - intros x y z Hxy Hyz. by eapply string_le_trans.
    - intros x y. rewrite Hc, !decide_True, string_le_not_gt by done.
      apply (Hsolve _ _ 1 (-1) (Hasym x y)). by right.
    - intros x y. rewrite Hc, !decide_True, string_le_not_gt by done.
      apply (Hsolve _ _ 1 (-1) (Hasym x y)). by right. }
  intros s. rewrite Hout. apply filter_sort.
  intros x y Hx Hy. cbv beta in Hx, Hy.
  apply bool_decide_eq_true_1 in Hx. apply bool_decide_eq_true_1 in Hy.
  rewrite Hc, Hx, Hy.
  assert (String.ltb s s = false) as ->; [|lia].
  apply string_le_not_gt. unfold string_le, String.leb.
  destruct (String.compare s s) eqn:Hss; try done.
  pose proof (String.compare_antisym s s) as Ha. rewrite Hss in Ha. discriminate Ha.
Qed.

Lemma string_field_sort_witness :
  let query := query_entries None (Some "id_desc") None None in
  Query.entries_sort query = Some "id_desc"
  /\ sort_request "id_desc" = ("id", Some "desc")
  /\ sort_stage query five
     = [entry "e" low; entry "d" high; entry "c" medium; entry "b" high; entry "a" low]
  /\ StronglySorted (fun a b => string_le (Entry.id b) (Entry.id a))
       (sort_stage query five).
Proof.
  intros query. split; [reflexivity|]. split; [reflexivity|]. split; [reflexivity|].
  assert (Hf : "id" ∈ ["id"; "content"; "createdAt"]) by (apply elem_of_cons; by left).
  destruct (string_field_sort query "id_desc" "id" (Some "desc") five
              eq_refl eq_refl Hf) as (_ & _ & _ & Hdesc & _).
  exact (Hdesc eq_refl).
Defined.

(** X18. With view=compact every other query parameter (include, filter,
    sort, page, size) is ignored. *)
Theorem compact_ignores_other_parameters (w : World) id (query1 query2 : Query.t) :
  Query.view query1 = Some "compact" ->
  Query.view query2 = Some "compact" ->
  fst (get_report id query1 w) = fst (get_report id query2 w).
Proof.
  intros H1 H2. destruct (find_report id w) as [[k r]|] eqn:Hfind.
  - by rewrite (get_report_compact _ _ _ _ _ Hfind H1),
               (get_report_compact _ _ _ _ _ Hfind H2).
  - by rewrite !get_report_missing.
Qed.

Lemma compact_ignores_other_parameters_witness :
  let query :=
    Query.mk (Some "entries") (Some "compact") (Some "true") (Some "id_desc")
             (Some 7) (Some 3) in
  Query.view query = Some "compact"
  /\ fst (get_report "r1" query (world_of five))
     = Response.mk 200 (CompactJson
         (Compact.mk "r1" "Q1 final" draft medium (Metrics.mk 0 0) 5 (2 # 5))).
Proof.
  intros query. split; [reflexivity|].
  rewrite (compact_ignores_other_parameters (world_of five) "r1" query query_compact
             eq_refl eq_refl).
  reflexivity.
Defined.




(** ** Further properties: authentication, authorisation and login *)

Lemma split_word (sep : ascii) (word rest : string) :
  split sep word = [word] ->
  split sep (word +:+ String sep rest) = word :: split sep rest.
Proof.
  induction word as [|c word IH]; intros Hw.
  - change ("" +:+ String sep rest) with (String sep rest). cbn [split].
    by rewrite decide_True.
  - change (String c word +:+ String sep rest)
      with (String c (word +:+ String sep rest)).
    cbn [split] in *. destruct (decide (c = sep)); [by injection Hw|].
    destruct (split sep word) as [|x xs] eqn:Hsplit.
    + injection Hw as <-. by rewrite IH.
    + injection Hw as -> ->. by rewrite IH.
Qed.

Lemma split_second_of_empty (sep : ascii) : split sep "" !! 1%nat = None.
Proof. reflexivity. Qed.

Section JwtFacts.
Variable verify : string -> option (option string).
Variable sign : string -> string.

Lemma authenticate_token (header token : string) (role : option string) :
  split " " header !! 1%nat = Some token ->
  token <> "" ->
  verify token = Some role ->
  authenticateJWT verify (Some header) = inr (User.mk role).
Proof.
  intros Hpiece Hne Hv. unfold authenticateJWT.
  assert (header <> "") as Hh by (intros ->; discriminate Hpiece).
  cbn [truthy_string default from_option]. unfold id.
  rewrite bool_decide_false by done. cbn [negb].
  rewrite Hpiece. cbn [truthy_string default from_option]. unfold id.
  rewrite bool_decide_false by done. cbn [negb]. by rewrite Hv.
Qed.

Lemma authorize_editor (role : option string) :
  authorizeRole ["editor"] (Some (User.mk role))
    = if decide (role = Some "editor") then None else Some forbidden.
Proof.
  unfold authorizeRole, includes. cbn [User.role].
  destruct role as [r|]; [|by rewrite decide_False].
  destruct (decide (Some r = Some "editor")) as [[= ->]|Hne].
  - rewrite bool_decide_true; [done|]. by apply list_elem_of_singleton.
  - rewrite bool_decide_false; [done|].
    intros ->%list_elem_of_singleton. done.
Qed.

Lemma route_rejected (authorization : option string) (req : Request) (w : World) res :
  authenticateJWT verify authorization = inl res ->
  route verify authorization req w = (res, w).
Proof. intros Hauth. destruct req; cbn [route]; unfold guarded; by rewrite Hauth. Qed.

Lemma route_by_role (header token : string) (role : option string)
    (req : Request) (w : World) :
  split " " header !! 1%nat = Some token ->
  token <> "" ->
  verify token = Some role ->
  route verify (Some header) req w =
    match req with
    | GetReport _ _ => handle req w
    | _ => if decide (role = Some "editor") then handle req w else (forbidden, w)
    end.
Proof.
  intros Hpiece Hne Hv.
  pose proof (authenticate_token header token role Hpiece Hne Hv) as Hauth.
  destruct req; cbn [route]; unfold guarded; rewrite Hauth; try done;
    rewrite authorize_editor; by destruct (decide _).
Qed.

(** Either the request is turned away with a 401, or the header's second
    piece is a token that verifies. *)
Lemma authenticate_cases (authorization : option string) :
  (exists message, authenticateJWT verify authorization = inl (unauthorized message))
  \/ (exists header token role,
        authorization = Some header
        /\ split " " header !! 1%nat = Some token
        /\ token <> ""
        /\ verify token = Some role).
Proof.
  unfold authenticateJWT.
  destruct authorization as [header|]; [|left; by eexists].
  cbn [truthy_string default from_option]. unfold id.
  destruct (bool_decide (header = "")); cbn [negb]; [left; by eexists|].
  destruct (split " " header !! 1%nat) as [token|] eqn:Hpiece;
    cbn [truthy_string default from_option]; [|left; by eexists].
  unfold id. destruct (decide (token = "")) as [->|Hne].
  { rewrite bool_decide_true by done. left. by eexists. }
  rewrite bool_decide_false by done. cbn [negb].
  destruct (verify token) as [role|] eqn:Hv; [|left; by eexists].
  right. by exists header, token, role.
Qed.

(** X20. A request whose Authorization header is absent or empty, has no
    second space-separated piece, or carries a token that does not verify,
    is answered 401 on every route, and the world is as before. *)
Theorem unauthenticated_is_rejected (authorization : option string) (req : Request)
    (w : World) :
  truthy_string (split " " (default "" authorization) !! 1%nat) = false
  \/ verify (default "" (split " " (default "" authorization) !! 1%nat)) = None ->
  exists message, route verify authorization req w = (unauthorized message, w).
Proof.
  intros Hbad.
  destruct (authenticate_cases authorization)
    as [[message Hauth]|(header & token & role & -> & Hpiece & Hne & Hv)].
  - exists message. by apply route_rejected.
  - exfalso. cbn [default from_option] in Hbad. unfold id in Hbad.
    rewrite Hpiece in Hbad. cbn [truthy_string default from_option] in Hbad.
    unfold id in Hbad. rewrite bool_decide_false in Hbad by done.
    destruct Hbad as [Hbad|Hbad]; [discriminate Hbad|congruence].
Qed.

(** X21. With a token that verifies, GET is served whatever the role in
    the payload, even none; POST /reports, PUT and the upload are served
    when the role is "editor" and are answered 403, with the world as
    before, otherwise. The first word of the header is not looked at. *)
Theorem access_by_role (header token : string) (role : option string)
    (req : Request) (w : World) :
  split " " header !! 1%nat = Some token ->
  token <> "" ->
  verify token = Some role ->
  route verify (Some header) req w =
    match req with
    | GetReport _ _ => handle req w
    | _ => if decide (role = Some "editor") then handle req w else (forbidden, w)
    end.
Proof.
  intros Hpiece Hne Hv.
  pose proof (authenticate_token header token role Hpiece Hne Hv) as Hauth.
  pose proof (authorize_editor role) as Hrole.
  destruct req; cbn [route]; unfold guarded; rewrite Hauth; try done;
    rewrite Hrole; by destruct (decide (role = Some "editor")).
Qed.

(** X22. The stored reports change only under a token whose payload has
    the role "editor". *)
Theorem only_editors_change_reports (authorization : option string) (req : Request)
    (w : World) :
  reports (snd (route verify authorization req w)) <> reports w ->
  exists header token,
    authorization = Some header
    /\ split " " header !! 1%nat = Some token
    /\ verify token = Some (Some "editor").
Proof.
  intros Hchanged.
  destruct (authenticate_cases authorization)
    as [[message Hauth]|(header & token & role & -> & Hpiece & Hne & Hv)].
  - exfalso. apply Hchanged. by rewrite (route_rejected _ req w _ Hauth).
  - exists header, token. split; [done|]. split; [done|].
    destruct (decide (role = Some "editor")) as [->|Hrole]; [done|].
    exfalso. apply Hchanged.
    rewrite (route_by_role header token role req w Hpiece Hne Hv).
    destruct req as [| | id query |]; try by rewrite decide_False.
    cbn [handle]. by destruct (get_report_frame w id query) as [fresh ->].
Qed.

(** X23. A token that POST /auth/login issued, sent as "Bearer <token>",
    opens exactly what its role allows: login issues tokens for the roles
    "reader" and "editor" only; an editor's token has every route served, a
    reader's token has GET served and every other route answered 403.
    This assumes of the library that a token has no space, is not empty
    and verifies to the role it was signed for. *)
Theorem login_token_access (role : option string) (token role' : string)
    (req : Request) (w : World) :
  login sign role = LoginOk token role' ->
  split " " token = [token] ->
  token <> "" ->
  verify token = Some (Some role') ->
  role = Some role'
  /\ (role' = "reader" \/ role' = "editor")
  /\ route verify (Some ("Bearer " +:+ token)) req w =
       match req with
       | GetReport _ _ => handle req w
       | _ => if decide (role' = "editor") then handle req w else (forbidden, w)
       end.
Proof.
  intros Hlogin Hword Hne Hv. unfold login, generateToken in Hlogin.
  assert (Hrole : role = Some role' /\ (role' = "reader" \/ role' = "editor")).
  { destruct (decide (role = Some "reader")) as [->|H1].
    - injection Hlogin as _ <-. auto.
    - destruct (decide (role = Some "editor")) as [->|H2].
      + injection Hlogin as _ <-. auto.
      + rewrite !bool_decide_true in Hlogin by done. discriminate Hlogin. }
  destruct Hrole as [-> Hrole]. split; [done|]. split; [done|].
  rewrite (route_by_role ("Bearer " +:+ token) token (Some role') req w); [|..|done|done].
  - destruct req; try done;
      destruct (decide (role' = "editor")) as [->|Hr];
      [by rewrite decide_True|rewrite decide_False; [done|congruence]
      |by rewrite decide_True|rewrite decide_False; [done|congruence]
      |by rewrite decide_True|rewrite decide_False; [done|congruence]].
  - change ("Bearer " +:+ token) with ("Bearer" +:+ String " " token).
    rewrite split_word by reflexivity. cbn. destruct token; [done|].
    by rewrite Hword.
Qed.
End JwtFacts.

Lemma unauthenticated_is_rejected_witness :
  (truthy_string (split " " (default "" (Some "Bearer")) !! 1%nat) = false
   \/ sample_verify (default "" (split " " (default "" (Some "Bearer")) !! 1%nat)) = None)
  /\ route sample_verify (Some "Bearer") (PutReport "t2" "r1" (only_version 2))
       (world_of five)
     = (unauthorized "Token missing", world_of five).
Proof.
  split; [by left|].
  destruct (unauthenticated_is_rejected sample_verify (Some "Bearer")
              (PutReport "t2" "r1" (only_version 2)) (world_of five))
    as [message Hroute]; [by left|].
  rewrite Hroute. vm_compute in Hroute. injection Hroute as <-. reflexivity.
Defined.

Lemma access_by_role_witness :
  split " " "Bearer tok-reader" !! 1%nat = Some "tok-reader"
  /\ sample_verify "tok-reader" = Some (Some "reader")
  /\ route sample_verify (Some "Bearer tok-reader")
       (PutReport "t2" "r1" (only_version 2)) (world_of five)
     = (forbidden, world_of five).
Proof.
  split; [reflexivity|]. split; [reflexivity|].
  exact (access_by_role sample_verify "Bearer tok-reader" "tok-reader" (Some "reader")
           (PutReport "t2" "r1" (only_version 2)) (world_of five)
           eq_refl ltac:(discriminate) eq_refl).
Defined.

Lemma only_editors_change_reports_witness :
  reports (snd (route sample_verify (Some "Basic tok-editor")
                  (PutReport "t2" "r1" (only_version 2)) (world_of five)))
    <> reports (world_of five)
  /\ exists header token,
       Some "Basic tok-editor" = Some header
       /\ split " " header !! 1%nat = Some token
       /\ sample_verify token = Some (Some "editor").
Proof.
  assert (H : reports (snd (route sample_verify (Some "Basic tok-editor")
                              (PutReport "t2" "r1" (only_version 2)) (world_of five)))
              <> reports (world_of five)) by discriminate.
  split; [exact H|].
  exact (only_editors_change_reports sample_verify (Some "Basic tok-editor")
           (PutReport "t2" "r1" (only_version 2)) (world_of five) H).
Defined.

Lemma login_token_access_witness :
  login sample_sign (Some "editor") = LoginOk "tok-editor" "editor"
  /\ login sample_sign (Some "admin")
     = LoginError (Response.mk 400 (Error "INVALID_ROLE" "Role must be reader or editor"))
  /\ sample_verify "tok-editor" = Some (Some "editor")
  /\ Response.status
       (fst (route sample_verify (Some "Bearer tok-editor")
               (PutReport "t2" "r1" (only_version 2)) (world_of five))) = 200.
Proof.
  split; [reflexivity|]. split; [reflexivity|]. split; [reflexivity|].
  destruct (login_token_access sample_verify sample_sign (Some "editor") "tok-editor"
              "editor" (PutReport "t2" "r1" (only_version 2)) (world_of five)
              eq_refl eq_refl ltac:(discriminate) eq_refl) as (_ & _ & Hroute).
  apply (f_equal (fun p => Response.status (fst p))) in Hroute. exact Hroute.
Defined.
